(** * MatrixBotCheckerTrans: the address classifier, the balance adapters,
      the dispatch engine and the preference store of [bot.py]

    A shallow embedding of [bot.py] and the properties of its
    specification.

    Conventions of the embedding.
    - A Python [str] is a [string]; one [ascii] stands for one character
      (the model's alphabet is the 256 code points of Latin-1).
    - A Python [dict] read from the environment or used as a store is a
      [gmap]; a JSON object is an association list (Python keeps the
      insertion order, and iterating a dict walks its keys in that order).
    - A Python [float] is a [spec_float] at binary64 ([prec = 53],
      [emax = 1024]); the arithmetic is the correctly rounded one of
      [SpecFloat].
    - An f-string is kept as the list of its pieces, literal text and
      interpolated values, before rendering; a string of the catalogue
      ([i18n.t]) is kept as the key, the arguments and the locale.
    - Effects are explicit: a computation reads the outside world (the
      answers of the HTTP providers and of the chat server) and yields the
      list of the events it caused with either a value or a raised
      exception. [requests.get] and the client's [send_text] and [whoami]
      may raise; what they answer is a parameter of every statement.
    - The chat client, the string catalogue and the logger are libraries:
      their calls appear as events, their internals are not modelled.
      [sync_forever] is the client's loop; what it does, and what the
      constructor of the client does, are answers of the outside. *)

From Stdlib Require Import ZArith String Ascii List Bool Lia.
From Stdlib Require Import Floats.SpecFloat.
From stdpp Require Import gmap strings.

Set Warnings "-register-all".

Open Scope string_scope.
Open Scope Z_scope.

(** ** Regular expressions: the fragment of Python's [re] used by
       [CRYPTO_PATTERNS] *)

Module Re.

(** [Bol] is [^], [Eol] is [$], [Cls] is a bracket class given by its
    ranges (a single character [c] is the range [(c, c)]), [Rep r lo hi]
    is [r{lo,hi}]. *)
Inductive regex : Type :=
| Bol
| Eol
| Chr (c : ascii)
| Cls (ranges : list (ascii * ascii))
| Cat (r1 r2 : regex)
| Alt (r1 r2 : regex)
| Rep (r : regex) (lo hi : nat).

Definition newline : ascii := "010"%char.

Definition in_range (c : ascii) (rg : ascii * ascii) : bool :=
  Ascii.leb (fst rg) c && Ascii.leb c (snd rg).

Definition in_class (ranges : list (ascii * ascii)) (c : ascii) : bool :=
  existsb (in_range c) ranges.

(** A matcher in continuation-passing style: [k pos rest] decides whether
    the remainder of the pattern matches from position [pos], where [rest]
    is still to be read. *)
Definition cont : Type := nat -> string -> bool.
Definition matcher : Type := nat -> string -> cont -> bool.

(** [r{lo,hi}]: one more iteration while [hi] allows it, or stop once [lo]
    iterations have been made. *)
Fixpoint rep (mr : matcher) (lo hi : nat) (pos : nat) (s : string) (k : cont)
  : bool :=
  match hi with
  | O => match lo with O => k pos s | S _ => false end
  | S hi' =>
      mr pos s (fun p t => rep mr (Nat.pred lo) hi' p t k)
      || match lo with O => k pos s | S _ => false end
  end.

(** Without [re.MULTILINE], [^] matches at position 0 only, and [$] matches
    at the end of the string and also just before a newline that is the
    last character of the string. *)
Fixpoint run (r : regex) (pos : nat) (s : string) (k : cont) : bool :=
  match r with
  | Bol => Nat.eqb pos 0 && k pos s
  | Eol =>
      match s with
      | EmptyString => k pos s
      | String c EmptyString => Ascii.eqb c newline && k pos s
      | String _ (String _ _) => false
      end
  | Chr c =>
      match s with
      | String d s' => Ascii.eqb c d && k (S pos) s'
      | EmptyString => false
      end
  | Cls ranges =>
      match s with
      | String d s' => in_class ranges d && k (S pos) s'
      | EmptyString => false
      end
  | Cat r1 r2 => run r1 pos s (fun p t => run r2 p t k)
  | Alt r1 r2 => run r1 pos s k || run r2 pos s k
  | Rep r' lo hi => rep (run r') lo hi pos s k
  end.

(** [re.match(pattern, s)] as the source uses it, for its truth value: some
    match starts at position 0; it may end anywhere. *)
Definition re_match (r : regex) (s : string) : bool :=
  run r 0%nat s (fun _ _ => true).

(** [re.fullmatch(pattern, s)]: the match has to read the whole string. *)
Definition fullmatch (r : regex) (s : string) : bool :=
  run r 0%nat s (fun _ t => match t with EmptyString => true | _ => false end).

(** The literal text [s], followed by the pattern [tail]. *)
Fixpoint lit (s : string) (tail : regex) : regex :=
  match s with
  | EmptyString => tail
  | String c s' => Cat (Chr c) (lit s' tail)
  end.

Definition one (c : ascii) : ascii * ascii := (c, c).

End Re.

Import Re.

(** ** The pattern table *)

Definition base58_btc : list (ascii * ascii) :=
  [("a", "z"); ("A", "H"); ("J", "N"); ("P", "Z"); ("0", "9")]%char.
Definition hex_digit : list (ascii * ascii) :=
  [("a", "f"); ("A", "F"); ("0", "9")]%char.
Definition base58_ltc : list (ascii * ascii) :=
  [("a", "k"); ("m", "z"); ("A", "H"); ("J", "N"); ("P", "Z"); ("1", "9")]%char.
Definition alnum : list (ascii * ascii) :=
  [("a", "z"); ("A", "Z"); ("0", "9")]%char.
Definition doge_second : list (ascii * ascii) :=
  [("5", "9"); ("A", "H"); ("J", "N"); ("P", "U")]%char.
Definition base58_doge : list (ascii * ascii) :=
  [("1", "9"); ("A", "H"); ("J", "N"); ("P", "Z"); ("a", "k"); ("m", "z")]%char.

(** [^(bc1|[13])[a-zA-HJ-NP-Z0-9]{25,39}$] *)
Definition pat_bitcoin : regex :=
  Cat Bol (Cat (Alt (Cat (Chr "b") (Cat (Chr "c") (Chr "1")))
                    (Cls [one "1"; one "3"]%char))
               (Cat (Rep (Cls base58_btc) 25 39) Eol)).
(** [^0x[a-fA-F0-9]{40}$] *)
Definition pat_ethereum : regex :=
  Cat Bol (lit "0x" (Cat (Rep (Cls hex_digit) 40 40) Eol)).
(** [^[LM3][a-km-zA-HJ-NP-Z1-9]{26,33}$] *)
Definition pat_litecoin : regex :=
  Cat Bol (Cat (Cls [one "L"; one "M"; one "3"]%char)
               (Cat (Rep (Cls base58_ltc) 26 33) Eol)).
(** [^T[a-zA-Z0-9]{33}$] *)
Definition pat_tron : regex :=
  Cat Bol (lit "T" (Cat (Rep (Cls alnum) 33 33) Eol)).
(** [^D{1}[5-9A-HJ-NP-U]{1}[1-9A-HJ-NP-Za-km-z]{32}$] *)
Definition pat_dogecoin : regex :=
  Cat Bol (Cat (Rep (Chr "D") 1 1)
               (Cat (Rep (Cls doge_second) 1 1)
                    (Cat (Rep (Cls base58_doge) 32 32) Eol))).

(** The dict literal, in its insertion order. *)
Definition CRYPTO_PATTERNS : list (string * regex) :=
  [ ("bitcoin", pat_bitcoin);
    ("ethereum", pat_ethereum);
    ("litecoin", pat_litecoin);
    ("tron", pat_tron);
    ("usdt_trc20", pat_tron);
    ("usdt_erc20", pat_ethereum);
    ("dogecoin", pat_dogecoin) ].

(** The loop of [detect_crypto_type] over [CRYPTO_PATTERNS.items()]. *)
Fixpoint detect_in (table : list (string * regex)) (address : string)
  : option string :=
  match table with
  | [] => None
  | (crypto_type, pattern) :: table' =>
      if re_match pattern address then Some crypto_type
      else detect_in table' address
  end.

Definition detect_crypto_type (address : string) : option string :=
  detect_in CRYPTO_PATTERNS address.

(** The classifier in the words of the specification: the first rule of the
    table whose matcher accepts the full string. *)
Fixpoint classify_in (table : list (string * regex)) (candidate : string)
  : option string :=
  match table with
  | [] => None
  | (coin, pattern) :: table' =>
      if fullmatch pattern candidate then Some coin
      else classify_in table' candidate
  end.

Definition classify_spec (candidate : string) : option string :=
  classify_in CRYPTO_PATTERNS candidate.

(** ** Python values, exceptions and the operations the adapters apply to
       the decoded JSON *)

(** The exceptions the modelled code can raise, all of them subclasses of
    [Exception]. [RequestException] stands for whatever [requests.get]
    raises, [JSONDecodeError] for what [response.json()] raises on a body
    that is not JSON, [TransportError] for what the chat client raises. *)
Inductive exn : Type :=
| TypeError
| KeyError
| IndexError
| AttributeError
| ValueError
| OverflowError
| ZeroDivisionError
| JSONDecodeError
| RequestException
| TransportError.

Inductive result (A : Type) : Type :=
| Ok (a : A)
| Raise (e : exn).
Arguments Ok {A} a.
Arguments Raise {A} e.

(** What [json.loads] produces, which is also every value the adapters
    compute with. *)
Inductive value : Type :=
| VNone
| VBool (b : bool)
| VInt (n : Z)
| VFloat (f : spec_float)
| VStr (s : string)
| VList (l : list value)
| VDict (kv : list (string * value)).

Module Py.

Definition prec : Z := 53.
Definition emax : Z := 1024.

Definition is_finite (f : spec_float) : bool :=
  match f with
  | S754_zero _ | S754_finite _ _ _ => true
  | S754_infinity _ | S754_nan => false
  end.

(** [float(n)] for an int: rounded to nearest even, [OverflowError] when
    the int is too large. *)
Definition float_of_int (n : Z) : result spec_float :=
  let f := binary_normalize prec emax n 0 false in
  if is_finite f then Ok f else Raise OverflowError.

(** The value of a float literal that denotes the integer [n] exactly
    ([1e6], [1e18]). *)
Definition float_lit (n : Z) : spec_float := binary_normalize prec emax n 0 false.

Definition sf_of_int_exact (n : Z) : spec_float :=
  match n with
  | Z0 => S754_zero false
  | Zpos p => S754_finite false p 0
  | Zneg p => S754_finite true p 0
  end.

(** [a / b] on ints: the correctly rounded quotient. *)
Definition int_true_div (a b : Z) : result spec_float :=
  if Z.eqb b 0 then Raise ZeroDivisionError
  else if Z.eqb a 0 then Ok (S754_zero (Z.ltb b 0))
  else
    let q := SFdiv prec emax (sf_of_int_exact a) (sf_of_int_exact b) in
    if is_finite q then Ok q else Raise OverflowError.

Definition is_zero (f : spec_float) : bool :=
  match f with S754_zero _ => true | _ => false end.

(** [x / y] on floats. *)
Definition float_true_div (x y : spec_float) : result spec_float :=
  if is_zero y then Raise ZeroDivisionError else Ok (SFdiv prec emax x y).

Definition int_of_bool (b : bool) : Z := if b then 1 else 0.

(** The operator [/]. A bool is an int. *)
Definition truediv (x y : value) : result value :=
  let num (v : value) : option (Z + spec_float) :=
    match v with
    | VInt n => Some (inl n)
    | VBool b => Some (inl (int_of_bool b))
    | VFloat f => Some (inr f)
    | _ => None
    end in
  match num x, num y with
  | Some (inl a), Some (inl b) =>
      match int_true_div a b with Ok f => Ok (VFloat f) | Raise e => Raise e end
  | Some (inl a), Some (inr g) =>
      match float_of_int a with
      | Ok f => match float_true_div f g with
                | Ok q => Ok (VFloat q) | Raise e => Raise e end
      | Raise e => Raise e
      end
  | Some (inr f), Some (inl b) =>
      match float_of_int b with
      | Ok g => match float_true_div f g with
                | Ok q => Ok (VFloat q) | Raise e => Raise e end
      | Raise e => Raise e
      end
  | Some (inr f), Some (inr g) =>
      match float_true_div f g with Ok q => Ok (VFloat q) | Raise e => Raise e end
  | _, _ => Raise TypeError
  end.

(** Truth value of an object. *)
Definition truthy (v : value) : bool :=
  match v with
  | VNone => false
  | VBool b => b
  | VInt n => negb (Z.eqb n 0)
  | VFloat f => negb (is_zero f)
  | VStr s => negb (String.eqb s "")
  | VList l => match l with [] => false | _ => true end
  | VDict kv => match kv with [] => false | _ => true end
  end.

(** [v == s] for a str [s]: only an equal str is equal to it. *)
Definition eq_str (v : value) (s : string) : bool :=
  match v with VStr t => String.eqb t s | _ => false end.

Fixpoint assoc (kv : list (string * value)) (key : string) : option value :=
  match kv with
  | [] => None
  | (k, v) :: kv' => if String.eqb k key then Some v else assoc kv' key
  end.

(** [d.get(key, default)]: only a dict has the method. *)
Definition get (d : value) (key : string) (default : value) : result value :=
  match d with
  | VDict kv => Ok (match assoc kv key with Some v => v | None => default end)
  | _ => Raise AttributeError
  end.

(** [d[key]] with a str key. *)
Definition getitem (d : value) (key : string) : result value :=
  match d with
  | VDict kv => match assoc kv key with Some v => Ok v | None => Raise KeyError end
  | _ => Raise TypeError
  end.

(** [d[0]]. The keys of a decoded JSON object are strs, so 0 is not one. *)
Definition getitem0 (d : value) : result value :=
  match d with
  | VList (v :: _) => Ok v
  | VList [] => Raise IndexError
  | VStr (String c _) => Ok (VStr (String c ""))
  | VStr EmptyString => Raise IndexError
  | VDict _ => Raise KeyError
  | _ => Raise TypeError
  end.

Definition len (v : value) : result Z :=
  match v with
  | VStr s => Ok (Z.of_nat (String.length s))
  | VList l => Ok (Z.of_nat (List.length l))
  | VDict kv => Ok (Z.of_nat (List.length kv))
  | _ => Raise TypeError
  end.

Fixpoint chars (s : string) : list value :=
  match s with
  | EmptyString => []
  | String c s' => VStr (String c "") :: chars s'
  end.

(** The items a [for] loop walks over. *)
Definition iter (v : value) : result (list value) :=
  match v with
  | VList l => Ok l
  | VStr s => Ok (chars s)
  | VDict kv => Ok (map (fun p => VStr (fst p)) kv)
  | _ => Raise TypeError
  end.

(** The characters [int] skips around a number: tab, line feed, vertical
    tab, form feed, carriage return, space, and the two white-space
    characters above 127, next line and no-break space. (The separators
    28 to 31 are white space for [str.isspace] but not for [int].) *)
Definition is_space (c : ascii) : bool :=
  existsb (N.eqb (N_of_ascii c)) [9; 10; 11; 12; 13; 32; 133; 160]%N.

Fixpoint lstrip (s : string) : string :=
  match s with
  | String c s' => if is_space c then lstrip s' else s
  | EmptyString => EmptyString
  end.

Fixpoint rev_string (s acc : string) : string :=
  match s with
  | EmptyString => acc
  | String c s' => rev_string s' (String c acc)
  end.

Definition strip (s : string) : string :=
  rev_string (lstrip (rev_string (lstrip s) "")) "".

Definition digit_of (c : ascii) : option Z :=
  let n := N_of_ascii c in
  if ((48 <=? n) && (n <=? 57))%N then Some (Z.of_N n - 48) else None.

(** Decimal digits, single underscores allowed between two digits. *)
Fixpoint digits (s : string) (acc : Z) (after_digit : bool) : option Z :=
  match s with
  | EmptyString => if after_digit then Some acc else None
  | String c s' =>
      match digit_of c with
      | Some d => digits s' (10 * acc + d) true
      | None =>
          if Ascii.eqb c "_" && after_digit then digits s' acc false else None
      end
  end.

(** The number of decimal digits of [s]; underscores do not count. *)
Fixpoint count_digits (s : string) : N :=
  match s with
  | EmptyString => 0%N
  | String c s' =>
      match digit_of c with
      | Some _ => N.succ (count_digits s')
      | None => count_digits s'
      end
  end.

(** The default of [sys.int_max_str_digits]. *)
Definition int_max_str_digits : N := 4300%N.

(** [int(s)] for a str, base 10: white space around, an optional sign,
    the digits, at most [int_max_str_digits] of them (leading zeros
    count). *)
Definition int_of_str (s : string) : result Z :=
  let body (neg : bool) (t : string) :=
    if (int_max_str_digits <? count_digits t)%N then Raise ValueError
    else
      match digits t 0 false with
      | Some n => Ok (if neg then - n else n)
      | None => Raise ValueError
      end in
  match strip s with
  | String "-" t => body true t
  | String "+" t => body false t
  | t => body false t
  end.

(** [int(f)] for a float: truncation towards zero. *)
Definition int_of_float (f : spec_float) : result Z :=
  match f with
  | S754_zero _ => Ok 0
  | S754_infinity _ => Raise OverflowError
  | S754_nan => Raise ValueError
  | S754_finite sg m e =>
      let a := match e with
               | Zneg k => Z.shiftr (Zpos m) (Zpos k)
               | _ => Z.shiftl (Zpos m) e
               end in
      Ok (if sg then - a else a)
  end.

(** The builtin [int]. *)
Definition int (v : value) : result Z :=
  match v with
  | VInt n => Ok n
  | VBool b => Ok (int_of_bool b)
  | VFloat f => int_of_float f
  | VStr s => int_of_str s
  | VNone | VList _ | VDict _ => Raise TypeError
  end.

End Py.

#[global] Instance result_ret : MRet result := fun _ a => Ok a.
#[global] Instance result_bind : MBind result := fun _ _ f r =>
  match r with
  | Ok a => f a
  | Raise e => Raise e
  end.

(** ** Text, events and the outside world *)

(** A piece of an f-string: literal text, or a value under [{...}]. *)
Inductive piece : Type :=
| Lit (s : string)
| Fmt (v : value)
| FmtExn (e : exn).

(** A str the bot logs or sends: an f-string (a plain literal is the
    f-string of one piece), or [i18n.t(key, **kwargs, locale=locale)]. *)
Inductive text : Type :=
| FStr (ps : list piece)
| I18n (key : string) (kwargs : list (string * text)) (locale : string).

Inductive event : Type :=
| HttpGet (url : string) (headers : list (string * string))
| SendText (room_id : string) (t : text)
| LogInfo (t : text)
| LogError (t : text)
| WhoAmI
| AddEventHandler
| SyncForever.

(** What [requests.get] returns: the status and the body, [None] when the
    body is not JSON. *)
Record response : Type := mkResponse {
  status_code : Z;
  body : option value
}.

(** The answers of the outside: of the providers to a GET; of the chat
    client to the construction [Client(homeserver)], to [send_text], to
    [whoami] and to [sync_forever] (which includes whether the client has
    such a method at all); and the [mxid] of the client. *)
Record world : Type := mkWorld {
  http : string -> list (string * string) -> result response;
  client_new : string -> result unit;
  chat_send : string -> text -> result unit;
  chat_whoami : result string;
  chat_sync : result unit;
  client_mxid : string
}.

(** The attributes of a [CryptoCheckerBot] next to its client. *)
Record bot : Type := mkBot {
  bot_homeserver : string;
  access_token : string;
  user_languages : gmap string string
}.

(** A computation over a state [S]: it reads the world and the state, and
    yields the events it caused, the state as it leaves it, and a value or
    an exception. A method of the bot is a computation over [bot]. *)
Definition prog (S A : Type) : Type := world -> S -> list event * S * result A.
Abbreviation io := (prog bot).

#[global] Instance prog_ret {S : Type} : MRet (prog S) := fun _ a _ b => ([], b, Ok a).
#[global] Instance prog_bind {S : Type} : MBind (prog S) := fun _ _ f m w b =>
  match m w b with
  | (t1, b1, Ok a) =>
      match f a w b1 with
      | (t2, b2, r) => ((t1 ++ t2)%list, b2, r)
      end
  | (t1, b1, Raise e) => (t1, b1, Raise e)
  end.

Definition lift {S A : Type} (r : result A) : prog S A := fun _ b => ([], b, r).

(** [try: body except Exception as e: handler(e)] *)
Definition try_except {S A : Type} (body : prog S A) (handler : exn -> prog S A)
  : prog S A :=
  fun w b =>
    match body w b with
    | (t1, b1, Ok a) => (t1, b1, Ok a)
    | (t1, b1, Raise e) =>
        match handler e w b1 with
        | (t2, b2, r) => ((t1 ++ t2)%list, b2, r)
        end
    end.

Definition requests_get {S : Type} (url : string) (headers : list (string * string))
  : prog S response :=
  fun w b => ([HttpGet url headers], b, http w url headers).

Definition json {S : Type} (r : response) : prog S value :=
  lift (match body r with Some v => Ok v | None => Raise JSONDecodeError end).

Definition send_text {S : Type} (room_id : string) (t : text) : prog S unit :=
  fun w b => ([SendText room_id t], b, chat_send w room_id t).

Definition logger_info {S : Type} (t : text) : prog S unit :=
  fun _ b => ([LogInfo t], b, Ok tt).
Definition logger_error {S : Type} (t : text) : prog S unit :=
  fun _ b => ([LogError t], b, Ok tt).

Definition get_state {S : Type} : prog S S := fun _ b => ([], b, Ok b).
Definition put_state {S : Type} (b' : S) : prog S unit := fun _ _ => ([], b', Ok tt).
Definition get_world {S : Type} : prog S world := fun w b => ([], b, Ok w).

(** Running a method on a bot from a computation that holds none. *)
Definition on_bot {A : Type} (b : bot) (m : io A) : prog unit A :=
  fun w _ => match m w b with (t, _, r) => (t, tt, r) end.

(** ** Configuration read at import *)

Definition environ : Type := gmap string string.

(** [os.getenv(name)] *)
Definition getenv (env : environ) (name : string) : option string := env !! name.

(** [os.getenv(name, default)] *)
Definition getenv_default (env : environ) (name default : string) : string :=
  match env !! name with
  | Some v => v
  | None => default
  end.

(** The dict [API_KEYS], built once from the environment. *)
Record api_keys : Type := mkKeys {
  etherscan : string;
  blockcypher : string;
  trongrid : string
}.

Definition API_KEYS (env : environ) : api_keys :=
  {| etherscan := getenv_default env "ETHERSCAN_API_KEY" "";
     blockcypher := getenv_default env "BLOCKCYPHER_API_KEY" "";
     trongrid := getenv_default env "TRONGRID_API_KEY" "" |}.

(** ** The balance adapters *)

Definition NL : string := String newline "".

Definition float_1e18 : value := VFloat (Py.float_lit (10 ^ 18)).
Definition float_1e6 : value := VFloat (Py.float_lit (10 ^ 6)).

Section Adapters.

Variable keys : api_keys.

(** [check_bitcoin], [check_litecoin] and [check_dogecoin] are the same
    text up to the network segment of the URL, the name of the coin and
    its ticker. *)
Definition utxo_url (segment address : string) : string :=
  "https://api.blockcypher.com/v1/" +:+ segment +:+ "/main/addrs/" +:+ address.

Definition check_utxo (segment coin ticker : string) (address : string)
  : io text :=
  let url := utxo_url segment address in
  response ← requests_get url [];
  if status_code response =? 200 then
    data ← json response;
    balance ← lift (b ← Py.get data "balance" (VInt 0);
                    Py.truediv b (VInt 100000000));
    total_received ← lift (r ← Py.get data "total_received" (VInt 0);
                           Py.truediv r (VInt 100000000));
    total_sent ← lift (s ← Py.get data "total_sent" (VInt 0);
                       Py.truediv s (VInt 100000000));
    n_tx ← lift (Py.get data "n_tx" (VInt 0));
    mret (FStr [Lit (coin +:+ " Address: "); Fmt (VStr address);
                Lit (NL +:+ "Balance: "); Fmt balance;
                Lit (" " +:+ ticker +:+ NL +:+ "Total Received: ");
                Fmt total_received;
                Lit (" " +:+ ticker +:+ NL +:+ "Total Sent: ");
                Fmt total_sent;
                Lit (" " +:+ ticker +:+ NL +:+ "Transactions: ");
                Fmt n_tx])
  else
    mret (FStr [Lit ("Error checking " +:+ coin +:+ " address: ");
                Fmt (VInt (status_code response))]).

Definition check_bitcoin : string -> io text := check_utxo "btc" "Bitcoin" "BTC".
Definition check_litecoin : string -> io text := check_utxo "ltc" "Litecoin" "LTC".
Definition check_dogecoin : string -> io text := check_utxo "doge" "Dogecoin" "DOGE".

Definition missing_key_text : text := FStr [Lit "Etherscan API key is not set"].

Definition eth_balance_url (address : string) : string :=
  "https://api.etherscan.io/api?module=account&action=balance&address="
  +:+ address +:+ "&tag=latest&apikey=" +:+ etherscan keys.

Definition eth_txlist_url (address : string) : string :=
  "https://api.etherscan.io/api?module=account&action=txlist&address="
  +:+ address +:+ "&startblock=0&endblock=99999999&sort=desc&apikey="
  +:+ etherscan keys.

Definition check_ethereum (address : string) : io text :=
  if String.eqb (etherscan keys) "" then mret missing_key_text
  else
    let url := eth_balance_url address in
    response ← requests_get url [];
    if status_code response =? 200 then
      data ← json response;
      status ← lift (Py.getitem data "status");
      if Py.eq_str status "1" then
        balance ← lift (r ← Py.getitem data "result";
                        n ← Py.int r;
                        Py.truediv (VInt n) float_1e18);
        let tx_url := eth_txlist_url address in
        tx_response ← requests_get tx_url [];
        tx_data ← json tx_response;
        tx_count ← lift (tx_status ← Py.getitem tx_data "status";
                         if Py.eq_str tx_status "1"
                         then (r ← Py.get tx_data "result" (VList []); Py.len r)
                         else mret 0);
        mret (FStr [Lit "Ethereum Address: "; Fmt (VStr address);
                    Lit (NL +:+ "Balance: "); Fmt balance;
                    Lit (" ETH" +:+ NL +:+ "Transactions: ");
                    Fmt (VInt tx_count)])
      else
        message ← lift (Py.getitem data "message");
        mret (FStr [Lit "Error checking Ethereum address: "; Fmt message])
    else
      mret (FStr [Lit "Error checking Ethereum address: ";
                  Fmt (VInt (status_code response))]).

Definition tron_headers : list (string * string) :=
  if String.eqb (trongrid keys) "" then []
  else [("TRON-PRO-API-KEY", trongrid keys)].

(** [data.get('success', False) and data.get('data', [])], for its truth
    value. *)
Definition success_with_data (data : value) : result bool :=
  success ← Py.get data "success" (VBool false);
  if Py.truthy success
  then (d ← Py.get data "data" (VList []); mret (Py.truthy d))
  else mret false.

Definition tron_url (address : string) : string :=
  "https://api.trongrid.io/v1/accounts/" +:+ address.

Definition check_tron (address : string) : io text :=
  let url := tron_url address in
  response ← requests_get url tron_headers;
  if status_code response =? 200 then
    data ← json response;
    found ← lift (success_with_data data);
    if (found : bool) then
      balance ← lift (d ← Py.getitem data "data";
                      account_data ← Py.getitem0 d;
                      b ← Py.get account_data "balance" (VInt 0);
                      Py.truediv b float_1e6);
      mret (FStr [Lit "TRON Address: "; Fmt (VStr address);
                  Lit (NL +:+ "Balance: "); Fmt balance; Lit " TRX"])
    else
      mret (FStr [Lit "No data found for TRON address: "; Fmt (VStr address)])
  else
    mret (FStr [Lit "Error checking TRON address: ";
                Fmt (VInt (status_code response))]).

Definition usdt_trc20_contract : string := "TR7NHqjeKQxGTCi8q8ZY4pL8otSzgjLj6t".

(** The [for token in token_data] loop with its [break]; [usdt_balance]
    starts at the int 0. *)
Fixpoint scan_tokens (tokens : list value) : result value :=
  match tokens with
  | [] => Ok (VInt 0)
  | token :: rest =>
      token_id ← Py.get token "tokenId" VNone;
      if Py.eq_str token_id usdt_trc20_contract then
        b ← Py.get token "balance" (VInt 0);
        n ← Py.int b;
        Py.truediv (VInt n) float_1e6
      else scan_tokens rest
  end.

Definition tron_usdt_url (address : string) : string :=
  "https://api.trongrid.io/v1/accounts/" +:+ address
  +:+ "/tokens?contract_address=" +:+ usdt_trc20_contract.

Definition check_tron_usdt (address : string) : io text :=
  let url := tron_usdt_url address in
  response ← requests_get url tron_headers;
  if status_code response =? 200 then
    data ← json response;
    found ← lift (success_with_data data);
    if (found : bool) then
      usdt_balance ← lift (token_data ← Py.getitem data "data";
                           tokens ← Py.iter token_data;
                           scan_tokens tokens);
      mret (FStr [Lit "USDT (TRC20) Address: "; Fmt (VStr address);
                  Lit (NL +:+ "Balance: "); Fmt usdt_balance; Lit " USDT"])
    else
      mret (FStr [Lit "No USDT (TRC20) tokens found for address: ";
                  Fmt (VStr address)])
  else
    mret (FStr [Lit "Error checking USDT (TRC20) address: ";
                Fmt (VInt (status_code response))]).

Definition usdt_erc20_contract : string :=
  "0xdac17f958d2ee523a2206206994597c13d831ec7".

Definition eth_usdt_url (address : string) : string :=
  "https://api.etherscan.io/api?module=account&action=tokenbalance&contractaddress="
  +:+ usdt_erc20_contract +:+ "&address=" +:+ address
  +:+ "&tag=latest&apikey=" +:+ etherscan keys.

Definition check_ethereum_usdt (address : string) : io text :=
  if String.eqb (etherscan keys) "" then mret missing_key_text
  else
    let url := eth_usdt_url address in
    response ← requests_get url [];
    if status_code response =? 200 then
      data ← json response;
      status ← lift (Py.getitem data "status");
      if Py.eq_str status "1" then
        balance ← lift (r ← Py.getitem data "result";
                        n ← Py.int r;
                        Py.truediv (VInt n) float_1e6);
        mret (FStr [Lit "USDT (ERC20) Address: "; Fmt (VStr address);
                    Lit (NL +:+ "Balance: "); Fmt balance; Lit " USDT"])
      else
        message ← lift (Py.getitem data "message");
        mret (FStr [Lit "Error checking USDT (ERC20) address: "; Fmt message])
    else
      mret (FStr [Lit "Error checking USDT (ERC20) address: ";
                  Fmt (VInt (status_code response))]).

(** The dict [self.crypto_apis]. *)
Definition crypto_apis (crypto_type : string) : option (string -> io text) :=
  if String.eqb crypto_type "bitcoin" then Some check_bitcoin
  else if String.eqb crypto_type "ethereum" then Some check_ethereum
  else if String.eqb crypto_type "litecoin" then Some check_litecoin
  else if String.eqb crypto_type "tron" then Some check_tron
  else if String.eqb crypto_type "usdt_trc20" then Some check_tron_usdt
  else if String.eqb crypto_type "usdt_erc20" then Some check_ethereum_usdt
  else if String.eqb crypto_type "dogecoin" then Some check_dogecoin
  else None.

End Adapters.

(** ** The preference store, the dispatch engine and the message handler *)

Inductive MessageType : Type := TEXT | EMOTE | NOTICE | IMAGE | FILE.

Definition MessageType_eqb (a b : MessageType) : bool :=
  match a, b with
  | TEXT, TEXT | EMOTE, EMOTE | NOTICE, NOTICE | IMAGE, IMAGE | FILE, FILE => true
  | _, _ => false
  end.

(** The fields of a room message that the handler reads. *)
Record message_event : Type := mkEvent {
  msgtype : MessageType;
  msg_body : string;
  room_id : string;
  sender : string
}.

(** [str.lower] on the model's alphabet. *)
Definition lower_char (c : ascii) : ascii :=
  let n := N_of_ascii c in
  if ((65 <=? n) && (n <=? 90)
      || (192 <=? n) && (n <=? 222) && negb (n =? 215))%N
  then ascii_of_N (n + 32) else c.

Fixpoint lower (s : string) : string :=
  match s with
  | EmptyString => EmptyString
  | String c s' => String (lower_char c) (lower s')
  end.

(** [s.replace('/', '')] *)
Fixpoint remove_slashes (s : string) : string :=
  match s with
  | EmptyString => EmptyString
  | String c s' => if Ascii.eqb c "/" then remove_slashes s'
                   else String c (remove_slashes s')
  end.

Definition startswith_at (s : string) : bool :=
  match s with
  | String "@" _ => true
  | _ => false
  end.

Section Bot.

Variable keys : api_keys.

Definition get_user_language (b : bot) (user_id : string) : string :=
  match user_languages b !! user_id with
  | Some lang => lang
  | None => "ru"
  end.

Definition set_language (room_id user_id lang : string) : io unit :=
  b ← get_state;
  put_state {| bot_homeserver := bot_homeserver b;
               access_token := access_token b;
               user_languages := <[user_id := lang]> (user_languages b) |};;
  send_text room_id (I18n "messages.language_changed" [] lang).

Definition error_notice (user_lang : string) : text :=
  I18n "messages.error" [] user_lang.

Definition checking_notice (address crypto_type user_lang : string) : text :=
  I18n "messages.checking"
       [("address", FStr [Lit address]);
        ("crypto", I18n ("crypto." +:+ crypto_type) [] user_lang)]
       user_lang.

Definition check_address (room_id address crypto_type sender : string) : io unit :=
  b ← get_state;
  let user_lang := get_user_language b sender in
  send_text room_id (checking_notice address crypto_type user_lang);;
  try_except
    (match crypto_apis keys crypto_type with
     | Some api =>
         result ← api address;
         send_text room_id result
     | None =>
         send_text room_id (I18n "messages.unsupported_crypto" [] user_lang)
     end)
    (fun e =>
       logger_error (FStr [Lit "Error checking address "; Fmt (VStr address);
                           Lit ": "; FmtExn e]);;
       send_text room_id (error_notice user_lang)).

Definition handle_message (ev : message_event) : io unit :=
  if negb (MessageType_eqb (msgtype ev) TEXT) then mret tt
  else
    let message := msg_body ev in
    w ← get_world;
    if String.eqb (sender ev) (client_mxid w) then mret tt
    else if String.eqb (lower message) "/ru" || String.eqb (lower message) "/en"
    then set_language (room_id ev) (sender ev) (remove_slashes (lower message))
    else
      match detect_crypto_type message with
      | Some crypto_type =>
          check_address (room_id ev) message crypto_type (sender ev)
      | None =>
          b ← get_state;
          send_text (room_id ev)
            (I18n "messages.invalid_address" [] (get_user_language b (sender ev)))
      end.

(** ** Start-up *)

Definition whoami : io string := fun w b => ([WhoAmI], b, chat_whoami w).

Definition login : io unit :=
  try_except
    (user_id ← whoami;
     logger_info (FStr [Lit "Logged in as "; Fmt (VStr user_id)]))
    (fun e =>
       logger_error (FStr [Lit "Failed to log in: "; FmtExn e]);;
       lift (Raise e)).

Definition add_event_handler : io unit := fun _ b => ([AddEventHandler], b, Ok tt).

(** [self.client.sync_forever(timeout=30000)]: the event marks that the
    call is reached; its outcome is the client's. A client that has no
    such method answers with [AttributeError]. *)
Definition sync_forever : io unit := fun w b => ([SyncForever], b, chat_sync w).

Definition start : io unit :=
  login;;
  add_event_handler;;
  sync_forever.

(** [__init__(self, homeserver, access_token)] *)
Definition CryptoCheckerBot_init (homeserver access_token : string) : bot :=
  {| bot_homeserver := homeserver;
     access_token := access_token;
     user_languages := ∅ |}.

(** A call of the class with positional arguments: binding them
    to the two parameters of [__init__] fails with [TypeError] unless
    there are exactly two; with two, [__init__] first builds the client,
    [client homeserver], which may raise. *)
Definition CryptoCheckerBot (client : string -> result unit) (args : list string)
  : result bot :=
  match args with
  | [homeserver; access_token] =>
      match client homeserver with
      | Ok _ => Ok (CryptoCheckerBot_init homeserver access_token)
      | Raise e => Raise e
      end
  | _ => Raise TypeError
  end.

Definition fmt_opt (o : option string) : piece :=
  Fmt (match o with Some s => VStr s | None => VNone end).

(** [not x] for what [os.getenv] returns. *)
Definition not_set (o : option string) : bool :=
  match o with
  | None => true
  | Some s => String.eqb s ""
  end.

Definition main (env : environ) : prog unit unit :=
  let homeserver := getenv env "MATRIX_HOMESERVER" in
  let user_id := getenv env "MATRIX_USER_ID" in
  let access_token := getenv env "MATRIX_ACCESS_TOKEN" in
  logger_info (FStr [Lit "Homeserver: "; fmt_opt homeserver]);;
  logger_info (FStr [Lit "User ID: "; fmt_opt user_id]);;
  logger_info (FStr [Lit "Access Token: ";
                     Fmt (VStr (if not_set access_token then "Not set"
                                else "**********"))]);;
  match homeserver, user_id, access_token with
  | Some h, Some u, Some a =>
      if String.eqb u "" || String.eqb a "" || String.eqb h "" then
        logger_error (FStr [Lit "Matrix homeserver, user_id or access_token not set"])
      else if negb (startswith_at u) then
        logger_error (FStr [Lit "User ID must start with @, got: "; Fmt (VStr u)])
      else
        w ← get_world;
        b ← lift (CryptoCheckerBot (client_new w) [h; u; a]);
        on_bot b start
  | _, _, _ =>
      logger_error (FStr [Lit "Matrix homeserver, user_id or access_token not set"])
  end.

End Bot.

(** ** Notions used to state the properties *)

Definition is_empty (s : string) : bool :=
  match s with EmptyString => true | _ => false end.

(** The string without its last character when that is a newline. *)
Fixpoint chomp (s : string) : string :=
  match s with
  | EmptyString => EmptyString
  | String c s' =>
      if Ascii.eqb c newline && is_empty s' then EmptyString
      else String c (chomp s')
  end.

Fixpoint ends_with_newline (s : string) : bool :=
  match s with
  | EmptyString => false
  | String c EmptyString => Ascii.eqb c newline
  | String _ s' => ends_with_newline s'
  end.

(** No character of the pattern is a newline, and it has no [$]. *)
Fixpoint newline_free (r : regex) : bool :=
  match r with
  | Bol => true
  | Eol => false
  | Chr c => negb (Ascii.eqb c newline)
  | Cls ranges => negb (in_class ranges newline)
  | Cat r1 r2 | Alt r1 r2 => newline_free r1 && newline_free r2
  | Rep r' _ _ => newline_free r'
  end.

(** A newline-free pattern closed by [$]. *)
Fixpoint dollar_closed (r : regex) : bool :=
  match r with
  | Eol => true
  | Cat r1 r2 => newline_free r1 && dollar_closed r2
  | _ => false
  end.

(** Two continuations that agree up to the removal of a final newline. *)
Definition chomp_related (k1 k2 : cont) : Prop :=
  forall p t, k1 p t = k2 p (chomp t).

Definition trace_of {S A : Type} (o : list event * S * result A) : list event :=
  fst (fst o).
Definition state_of {S A : Type} (o : list event * S * result A) : S :=
  snd (fst o).
Definition result_of {S A : Type} (o : list event * S * result A) : result A :=
  snd o.

(** The texts sent to the conversations, in order. *)
Definition sent_texts (t : list event) : list text :=
  flat_map (fun e => match e with SendText _ x => [x] | _ => [] end) t.

(** What went to the log at level ERROR, in order. *)
Definition logged_errors (t : list event) : list text :=
  flat_map (fun e => match e with LogError x => [x] | _ => [] end) t.

(** The GET requests issued, in order. *)
Definition requests_of (t : list event) : list string :=
  flat_map (fun e => match e with HttpGet url _ => [url] | _ => [] end) t.

Definition is_log_info (e : event) : bool :=
  match e with LogInfo _ => true | _ => false end.

(** The float [f] is exactly the fraction [num / den]. *)
Definition float_is_ratio (f : spec_float) (num den : Z) : Prop :=
  match f with
  | S754_zero _ => num = 0
  | S754_finite sg m e =>
      (if sg then Zneg m else Zpos m) * 2 ^ Z.max e 0 * den = num * 2 ^ Z.max (- e) 0
  | S754_infinity _ | S754_nan => False
  end.

(** An entry of a token list that is an object for another token than
    USDT. *)
Definition is_other_token (token : value) : bool :=
  match token with
  | VDict kv =>
      negb (Py.eq_str (match Py.assoc kv "tokenId" with Some v => v | None => VNone end)
                      usdt_trc20_contract)
  | _ => false
  end.

(** The UTXO-style adapters with the network segment of their URL and the
    name of their coin. *)
Definition utxo_adapters : list (string * string * (string -> io text)) :=
  [ ("btc", "Bitcoin", check_bitcoin);
    ("ltc", "Litecoin", check_litecoin);
    ("doge", "Dogecoin", check_dogecoin) ].

(** The float 1.5. *)
Definition one_and_a_half : spec_float := S754_finite false 6755399441055744 (-52).

(** The report of [check_tron_usdt] with the balance [v]. *)
Definition usdt_trc20_report (address : string) (v : value) : text :=
  FStr [Lit "USDT (TRC20) Address: "; Fmt (VStr address);
        Lit (NL +:+ "Balance: "); Fmt v; Lit " USDT"].

(** The report of [check_ethereum] with the balance [v] and [n]
    transactions. *)
Definition ethereum_report (address : string) (v : value) (n : Z) : text :=
  FStr [Lit "Ethereum Address: "; Fmt (VStr address);
        Lit (NL +:+ "Balance: "); Fmt v;
        Lit (" ETH" +:+ NL +:+ "Transactions: "); Fmt (VInt n)].

(** *** Stubs for the examples *)

(** A world whose providers answer by [h], whose chat server accepts every
    message, and whose client has no [sync_forever]. *)
Definition stub_world (h : string -> list (string * string) -> result response)
  : world :=
  {| http := h;
     client_new := fun _ => Ok tt;
     chat_send := fun _ _ => Ok tt;
     chat_whoami := Ok "@checker:example.org";
     chat_sync := Raise AttributeError;
     client_mxid := "@checker:example.org" |}.

Definition answer (status : Z) (body : option value)
  : string -> list (string * string) -> result response :=
  fun _ _ => Ok (mkResponse status body).

Definition fresh_bot : bot := CryptoCheckerBot_init "https://example.org" "token".

Definition no_keys : api_keys := mkKeys "" "" "".
Definition some_keys : api_keys := mkKeys "KEY" "" "".

Definition btc_example : string := "1A1zP1eP5QGefi2DMPTfTL5SLmv7DivfNa".
Definition eth_example : string := "0x52908400098527886E0F7030069857D2E4169EE7".
Definition tron_example : string := "TR7NHqjeKQxGTCi8q8ZY4pL8otSzgjLj6t".

Definition btc_body : value :=
  VDict [("balance", VInt 150000000); ("total_received", VInt 150000000);
         ("total_sent", VInt 0); ("n_tx", VInt 1)].

Definition eth_balance_body : value :=
  VDict [("status", VStr "1"); ("message", VStr "OK");
         ("result", VStr "1500000000000000000")].

(** The balance request is answered with [eth_balance_body], every other
    request by [other]. *)
Definition eth_world (other : result response) : world :=
  stub_world (fun url _ =>
                if String.eqb url (eth_balance_url some_keys eth_example)
                then Ok (mkResponse 200 (Some eth_balance_body))
                else other).

Definition start_env : environ :=
  <["MATRIX_HOMESERVER" := "https://example.org"]>
    (<["MATRIX_USER_ID" := "@checker:example.org"]>
       (<["MATRIX_ACCESS_TOKEN" := "token"]> ∅)).

(** *** Shapes of strings *)

(** Every character of [s] satisfies [p]. *)
Fixpoint string_all (p : ascii -> bool) (s : string) : bool :=
  match s with
  | EmptyString => true
  | String c s' => p c && string_all p s'
  end.

(** [n] lies between [lo] and [hi]. *)
Definition between (lo hi n : nat) : Prop := (lo <= n /\ n <= hi)%nat.

(** Between [lo] and [hi] characters, all of the class. *)
Definition tail_ok (ranges : list (ascii * ascii)) (lo hi : nat) (u : string) : bool :=
  (lo <=? String.length u)%nat && (String.length u <=? hi)%nat
  && string_all (in_class ranges) u.

(** "0x" and 40 hexadecimal digits. *)
Definition ethereum_shape (s : string) : bool :=
  match s with
  | String c (String d u) =>
      Ascii.eqb "0" c && (Ascii.eqb "x" d && tail_ok hex_digit 40 40 u)
  | _ => false
  end.

(** "T" and 33 letters or digits. *)
Definition tron_shape (s : string) : bool :=
  match s with
  | String c u => Ascii.eqb "T" c && tail_ok alnum 33 33 u
  | _ => false
  end.

(** "D", one of [5-9A-HJ-NP-U], and 32 base58 characters. *)
Definition dogecoin_shape (s : string) : bool :=
  match s with
  | String c (String d u) =>
      Ascii.eqb "D" c && (in_class doge_second d && tail_ok base58_doge 32 32 u)
  | _ => false
  end.

(** "L" or "M", and 26 to 33 base58 characters. *)
Definition litecoin_shape (s : string) : bool :=
  match s with
  | String c u =>
      (Ascii.eqb "L" c || Ascii.eqb "M" c) && tail_ok base58_ltc 26 33 u
  | _ => false
  end.

(** "bc1", "1" or "3", and 25 to 39 characters of [a-zA-HJ-NP-Z0-9]. *)
Definition bitcoin_shape (s : string) : bool :=
  match s with
  | String c u =>
      match u with
      | String d (String e v) =>
          Ascii.eqb "b" c && (Ascii.eqb "c" d && (Ascii.eqb "1" e
                                                  && tail_ok base58_btc 25 39 v))
      | _ => false
      end
      || (Ascii.eqb "1" c || Ascii.eqb "3" c) && tail_ok base58_btc 25 39 u
  | _ => false
  end.

(** The type of an address by its shape. *)
Definition classify_by_shape (s : string) : option string :=
  if bitcoin_shape s then Some "bitcoin"
  else if ethereum_shape s then Some "ethereum"
  else if litecoin_shape s then Some "litecoin"
  else if tron_shape s then Some "tron"
  else if dogecoin_shape s then Some "dogecoin"
  else None.

(** The lengths of the addresses of a type, shortest and longest. *)
Definition address_lengths (crypto_type : string) : option (nat * nat) :=
  if String.eqb crypto_type "bitcoin" then Some (26, 42)%nat
  else if String.eqb crypto_type "ethereum" then Some (42, 42)%nat
  else if String.eqb crypto_type "litecoin" then Some (27, 34)%nat
  else if String.eqb crypto_type "tron" then Some (34, 34)%nat
  else if String.eqb crypto_type "dogecoin" then Some (34, 34)%nat
  else None.

(** *** Effects *)

Definition is_http_get (e : event) : bool :=
  match e with HttpGet _ _ => true | _ => false end.

Definition is_log (e : event) : bool :=
  match e with LogInfo _ | LogError _ => true | _ => false end.

(** A method that leaves the bot as it found it and does nothing but issue
    at most [n] GET requests: it sends no message and writes no log. *)
Definition requests_only {A : Type} (n : nat) (m : io A) : Prop :=
  forall (w : world) (b : bot),
    state_of (m w b) = b
    /\ forallb is_http_get (trace_of (m w b)) = true
    /\ (List.length (trace_of (m w b)) <= n)%nat.

(** Every stored preference is one of the two languages of the commands. *)
Definition known_languages (b : bot) : Prop :=
  map_Forall (fun _ lang => lang = "ru" \/ lang = "en") (user_languages b).

(** The message is one of the two language commands. *)
Definition is_language_command (message : string) : bool :=
  String.eqb (lower message) "/ru" || String.eqb (lower message) "/en".

(** A decoded JSON value that is an object. *)
Definition is_dict (v : value) : bool :=
  match v with VDict _ => true | _ => false end.

(** The report of a UTXO adapter. *)
Definition utxo_report (coin ticker address : string)
    (balance total_received total_sent n_tx : value) : text :=
  FStr [Lit (coin +:+ " Address: "); Fmt (VStr address);
        Lit (NL +:+ "Balance: "); Fmt balance;
        Lit (" " +:+ ticker +:+ NL +:+ "Total Received: "); Fmt total_received;
        Lit (" " +:+ ticker +:+ NL +:+ "Total Sent: "); Fmt total_sent;
        Lit (" " +:+ ticker +:+ NL +:+ "Transactions: "); Fmt n_tx].

(** The UTXO-style adapters with their segment, coin name and ticker. *)
Definition utxo_adapters_full
  : list (string * string * string * (string -> io text)) :=
  [ ("btc", "Bitcoin", "BTC", check_bitcoin);
    ("ltc", "Litecoin", "LTC", check_litecoin);
    ("doge", "Dogecoin", "DOGE", check_dogecoin) ].

(** *** The texts of the failures *)







(** * Properties *)

(** ** The classifier *)

Lemma chomp_cons (c : ascii) (s : string) :
  chomp (String c s) =
  if Ascii.eqb c newline && is_empty s then EmptyString else String c (chomp s).
Proof. reflexivity. Qed.

Lemma step_chomp (ok : ascii -> bool) (s : string) (pos : nat) (k1 k2 : cont) :
  ok newline = false ->
  chomp_related k1 k2 ->
  match s with
  | String d s' => ok d && k1 (S pos) s'
  | EmptyString => false
  end =
  match chomp s with
  | String d s' => ok d && k2 (S pos) s'
  | EmptyString => false
  end.
Proof.
  intros Hnl Hk. destruct s as [|d s']; [reflexivity|].
  rewrite chomp_cons.
  destruct (Ascii.eqb d newline) eqn:Hd; simpl.
  - apply Ascii.eqb_eq in Hd. subst d. rewrite Hnl. simpl.
    destruct s'; simpl; rewrite ?Hnl; reflexivity.
  - now rewrite (Hk (S pos) s').
Qed.

Lemma rep_chomp (mr : matcher) (lo hi : nat) :
  (forall pos s k1 k2, chomp_related k1 k2 -> mr pos s k1 = mr pos (chomp s) k2) ->
  forall pos s k1 k2,
    chomp_related k1 k2 -> rep mr lo hi pos s k1 = rep mr lo hi pos (chomp s) k2.
Proof.
  intros Hmr. revert lo.
  induction hi as [|hi IH]; intros lo pos s k1 k2 Hk; simpl.
  - destruct lo; [apply Hk | reflexivity].
  - f_equal.
    + apply Hmr. intros p t. now apply IH.
    + destruct lo; [apply Hk | reflexivity].
Qed.

Lemma run_chomp (r : regex) :
  newline_free r = true ->
  forall pos s k1 k2,
    chomp_related k1 k2 -> run r pos s k1 = run r pos (chomp s) k2.
Proof.
  induction r as [| |c|ranges|r1 IH1 r2 IH2|r1 IH1 r2 IH2|r' IH lo hi];
    simpl; intros Hnf pos s k1 k2 Hk.
  - now rewrite (Hk pos s).
  - discriminate.
  - apply (step_chomp (Ascii.eqb c)); [|exact Hk].
    now apply negb_true_iff in Hnf.
  - apply (step_chomp (in_class ranges)); [|exact Hk].
    now apply negb_true_iff in Hnf.
  - apply andb_true_iff in Hnf as [H1 H2].
    apply IH1; [exact H1|]. intros p t. now apply IH2.
  - apply andb_true_iff in Hnf as [H1 H2].
    now rewrite (IH1 H1 pos s k1 k2 Hk), (IH2 H2 pos s k1 k2 Hk).
  - apply rep_chomp; [|exact Hk]. intros p t j1 j2 Hj. now apply IH.
Qed.

Lemma eol_chomp (pos : nat) (s : string) :
  run Eol pos s (fun _ _ => true) = run Eol pos (chomp s) (fun _ t => is_empty t).
Proof.
  destruct s as [|c [|d s']]; [reflexivity| |].
  - rewrite chomp_cons. simpl.
    destruct (Ascii.eqb c newline) eqn:Hc; simpl; rewrite ?Hc; reflexivity.
  - rewrite !chomp_cons. simpl is_empty at 1. rewrite andb_false_r.
    destruct (Ascii.eqb d newline && is_empty s'); simpl;
      rewrite ?andb_false_r; reflexivity.
Qed.

Lemma dollar_closed_chomp (r : regex) :
  dollar_closed r = true ->
  forall pos s,
    run r pos s (fun _ _ => true) = run r pos (chomp s) (fun _ t => is_empty t).
Proof.
  induction r as [| |c|ranges|r1 _ r2 IH2|r1 _ r2 _|r' _ lo hi];
    simpl; try discriminate; intros Hd pos s.
  - exact (eol_chomp pos s).
  - apply andb_true_iff in Hd as [H1 H2].
    apply (run_chomp r1 H1). intros p t. now apply IH2.
Qed.

(** On a pattern of the table, [re.match] accepts a string exactly when
    [re.fullmatch] accepts it without its final newline. *)
Lemma re_match_fullmatch_chomp (r : regex) (s : string) :
  dollar_closed r = true -> re_match r s = fullmatch r (chomp s).
Proof. intros Hd. now apply dollar_closed_chomp. Qed.

Lemma table_dollar_closed :
  forallb (fun p => dollar_closed (snd p)) CRYPTO_PATTERNS = true.
Proof. vm_compute. reflexivity. Qed.

Lemma detect_in_classify_in (table : list (string * regex)) (s : string) :
  forallb (fun p => dollar_closed (snd p)) table = true ->
  detect_in table s = classify_in table (chomp s).
Proof.
  induction table as [|[c r] table IH]; simpl; [reflexivity|].
  intros H. apply andb_true_iff in H as [Hr Ht].
  rewrite (re_match_fullmatch_chomp r s Hr), (IH Ht). reflexivity.
Qed.

(** What [detect_crypto_type] computes: the first rule of the table that
    accepts the whole of the string once one final newline is dropped. *)
Lemma detect_crypto_type_chomp (s : string) :
  detect_crypto_type s = classify_spec (chomp s).
Proof. apply detect_in_classify_in, table_dollar_closed. Qed.

(** The loop returns the type of the first rule that [re.match] accepts,
    and [None] when it accepts none. *)
Lemma detect_in_first_match (table : list (string * regex)) (s c : string) :
  detect_in table s = Some c <->
  exists before pattern after,
    table = (before ++ (c, pattern) :: after)%list
    /\ re_match pattern s = true
    /\ forallb (fun p => negb (re_match (snd p) s)) before = true.
Proof.
  induction table as [|[c0 r0] table IH]; simpl.
  - split; [discriminate|]. intros (before & pattern & after & H & _).
    destruct before; discriminate H.
  - destruct (re_match r0 s) eqn:Hm.
    + split.
      * intros H. inversion H; subst c0. exists [], r0, table. auto.
      * intros (before & pattern & after & H & Hp & Hb).
        destruct before as [|[c1 r1] before]; simpl in H; inversion H; subst.
        -- reflexivity.
        -- simpl in Hb. rewrite Hm in Hb. discriminate Hb.
    + rewrite IH. split.
      * intros (before & pattern & after & H & Hp & Hb).
        exists ((c0, r0) :: before), pattern, after. subst table.
        simpl. rewrite Hm. auto.
      * intros (before & pattern & after & H & Hp & Hb).
        destruct before as [|[c1 r1] before]; simpl in H; inversion H; subst.
        -- congruence.
        -- simpl in Hb. rewrite Hm in Hb. simpl in Hb.
           exists before, pattern, after. auto.
Qed.

Lemma detect_in_none (table : list (string * regex)) (s : string) :
  detect_in table s = None <->
  forallb (fun p => negb (re_match (snd p) s)) table = true.
Proof.
  induction table as [|[c0 r0] table IH]; simpl; [tauto|].
  destruct (re_match r0 s); simpl; [split; discriminate | exact IH].
Qed.

(** The rules of usdt_trc20 and usdt_erc20 stand behind the rules of tron
    and ethereum, which have the same patterns: they are never reached. *)
Lemma detect_crypto_type_never_usdt (s : string) :
  detect_crypto_type s <> Some "usdt_trc20"
  /\ detect_crypto_type s <> Some "usdt_erc20".
Proof.
  unfold detect_crypto_type, CRYPTO_PATTERNS, detect_in.
  destruct (re_match pat_bitcoin s); [split; discriminate|].
  destruct (re_match pat_ethereum s); [split; discriminate|].
  destruct (re_match pat_litecoin s); [split; discriminate|].
  destruct (re_match pat_tron s); [split; discriminate|].
  destruct (re_match pat_dogecoin s); split; discriminate.
Qed.

Lemma chomp_id (s : string) : ends_with_newline s = false -> chomp s = s.
Proof.
  induction s as [|c s IH]; [reflexivity|].
  rewrite chomp_cons. simpl. destruct s as [|d s'].
  - intros ->. reflexivity.
  - intros H. rewrite andb_false_r, (IH H). reflexivity.
Qed.

(** On every string that does not end in a newline the code is the
    classifier of the specification. *)
Lemma detect_crypto_type_classify_spec (s : string) :
  ends_with_newline s = false -> detect_crypto_type s = classify_spec s.
Proof.
  intros H. now rewrite detect_crypto_type_chomp, (chomp_id s H).
Qed.

(** C2, at the input where the code leaves the specification: an Ethereum address
    followed by a newline. No rule of the table accepts that string in full,
    so the classifier of the specification answers none, and
    [detect_crypto_type] answers ethereum: the [$] of the pattern also
    matches in front of a final newline. *)
Theorem detect_crypto_type_trailing_newline :
  detect_crypto_type (eth_example +:+ NL) = Some "ethereum"
  /\ forallb (fun p => negb (fullmatch (snd p) (eth_example +:+ NL))) CRYPTO_PATTERNS
     = true
  /\ classify_spec (eth_example +:+ NL) = None.
Proof. repeat split. Qed.

(** The examples of the specification. *)
Example detect_examples :
  detect_crypto_type btc_example = Some "bitcoin"
  /\ detect_crypto_type "bc1qar0srrr7xfkvy5l643lydnw9re59gtzzwf5mdq" = Some "bitcoin"
  /\ detect_crypto_type eth_example = Some "ethereum"
  /\ detect_crypto_type "LZHyXoff7uS8N5bT5vJZtXkUu6KQKjQHcP" = Some "litecoin"
  /\ detect_crypto_type tron_example = Some "tron"
  /\ detect_crypto_type "DH5yaieqoZN36fDVciNyRueRGvGLR3mr7L" = Some "dogecoin"
  /\ detect_crypto_type "" = None
  /\ detect_crypto_type "not-an-address" = None.
Proof. repeat split. Qed.

(** ** The adapters *)

#[local] Arguments Py.truediv : simpl never.
#[local] Arguments Py.int : simpl never.
#[local] Arguments Py.len : simpl never.
#[local] Arguments detect_crypto_type : simpl never.
#[local] Arguments lower : simpl never.

Ltac run_io :=
  unfold mbind, mret, prog_bind, prog_ret, result_bind, result_ret,
    requests_get, json, lift, send_text, logger_error, logger_info,
    get_state, put_state, get_world, try_except; cbn.

Section AdapterFacts.

Variable keys : api_keys.
Variables (w : world) (b : bot).

Lemma check_utxo_not_200 (segment coin ticker address : string) (r : response) :
  http w (utxo_url segment address) [] = Ok r ->
  (status_code r =? 200) = false ->
  check_utxo segment coin ticker address w b =
    ([HttpGet (utxo_url segment address) []], b,
     Ok (FStr [Lit ("Error checking " +:+ coin +:+ " address: ");
               Fmt (VInt (status_code r))])).
Proof.
  intros Hget Hst. unfold check_utxo. run_io. rewrite Hget, Hst. reflexivity.
Qed.





Lemma missing_key (address : string) :
  etherscan keys = "" ->
  check_ethereum keys address w b = ([], b, Ok missing_key_text)
  /\ check_ethereum_usdt keys address w b = ([], b, Ok missing_key_text).
Proof.
  intros Hk. unfold check_ethereum, check_ethereum_usdt. rewrite Hk.
  split; reflexivity.
Qed.

End AdapterFacts.

(** C8. When the provider answers a UTXO-style adapter (bitcoin, litecoin,
    dogecoin) with HTTP 404, the adapter returns normally, for every
    address, with its provider-unavailable message carrying the status
    404; it raises nothing. *)
Theorem utxo_adapter_404 (segment coin : string) (api : string -> io text)
    (w : world) (b : bot) (address : string) (r : response) :
  In (segment, coin, api) utxo_adapters ->
  http w (utxo_url segment address) [] = Ok r ->
  status_code r = 404 ->
  api address w b =
    ([HttpGet (utxo_url segment address) []], b,
     Ok (FStr [Lit ("Error checking " +:+ coin +:+ " address: "); Fmt (VInt 404)])).
Proof.
  intros Hin Hget Hst.
  assert (Hne : (status_code r =? 200) = false) by now rewrite Hst.
  simpl in Hin.
  destruct Hin as [Heq | [Heq | [Heq | []]]]; inversion Heq; subst;
    unfold check_bitcoin, check_litecoin, check_dogecoin;
    rewrite (check_utxo_not_200 w b _ _ _ _ r Hget Hne), Hst; reflexivity.
Qed.

Lemma utxo_adapter_404_witness :
  check_dogecoin btc_example (stub_world (answer 404 None)) fresh_bot =
    ([HttpGet (utxo_url "doge" btc_example) []], fresh_bot,
     Ok (FStr [Lit "Error checking Dogecoin address: "; Fmt (VInt 404)])).
Proof.
  apply (utxo_adapter_404 "doge" "Dogecoin" check_dogecoin
           (stub_world (answer 404 None)) fresh_bot btc_example
           (mkResponse 404 None)).
  - simpl. right. right. left. reflexivity.
  - reflexivity.
  - reflexivity.
Defined.

(** C9. When the provider answers HTTP 200 with an object whose balance,
    total_received and total_sent are ints, the bitcoin adapter returns, for
    every address, the report in which each of the three amounts is the
    float of the int divided by 100000000 (the correctly rounded quotient of
    Python's [/]) and the transaction count is [n_tx] as received. For the
    body with balance 150000000, total_received 150000000, total_sent 0 and
    n_tx 1 these are exactly 1.5, 1.5, 0.0 and 1. *)
Theorem check_bitcoin_satoshi_report :
  (forall (w : world) (b : bot) (address : string) (kv : list (string * value))
          (balance total_received total_sent : Z) (n_tx : value)
          (fb fr fs : spec_float),
      http w (utxo_url "btc" address) [] = Ok (mkResponse 200 (Some (VDict kv))) ->
      Py.assoc kv "balance" = Some (VInt balance) ->
      Py.assoc kv "total_received" = Some (VInt total_received) ->
      Py.assoc kv "total_sent" = Some (VInt total_sent) ->
      Py.assoc kv "n_tx" = Some n_tx ->
      Py.int_true_div balance 100000000 = Ok fb ->
      Py.int_true_div total_received 100000000 = Ok fr ->
      Py.int_true_div total_sent 100000000 = Ok fs ->
      check_bitcoin address w b =
        ([HttpGet (utxo_url "btc" address) []], b,
         Ok (FStr [Lit "Bitcoin Address: "; Fmt (VStr address);
                   Lit (NL +:+ "Balance: "); Fmt (VFloat fb);
                   Lit (" BTC" +:+ NL +:+ "Total Received: "); Fmt (VFloat fr);
                   Lit (" BTC" +:+ NL +:+ "Total Sent: "); Fmt (VFloat fs);
                   Lit (" BTC" +:+ NL +:+ "Transactions: "); Fmt n_tx])))
  /\ (forall (w : world) (b : bot) (address : string) (kv : list (string * value)),
        http w (utxo_url "btc" address) [] = Ok (mkResponse 200 (Some (VDict kv))) ->
        Py.assoc kv "balance" = Some (VInt 150000000) ->
        Py.assoc kv "total_received" = Some (VInt 150000000) ->
        Py.assoc kv "total_sent" = Some (VInt 0) ->
        Py.assoc kv "n_tx" = Some (VInt 1) ->
        check_bitcoin address w b =
          ([HttpGet (utxo_url "btc" address) []], b,
           Ok (FStr [Lit "Bitcoin Address: "; Fmt (VStr address);
                     Lit (NL +:+ "Balance: "); Fmt (VFloat one_and_a_half);
                     Lit (" BTC" +:+ NL +:+ "Total Received: ");
                     Fmt (VFloat one_and_a_half);
                     Lit (" BTC" +:+ NL +:+ "Total Sent: ");
                     Fmt (VFloat (S754_zero false));
                     Lit (" BTC" +:+ NL +:+ "Transactions: "); Fmt (VInt 1)])))
  /\ float_is_ratio one_and_a_half 150000000 (10 ^ 8)
  /\ float_is_ratio (S754_zero false) 0 (10 ^ 8).
Proof.
  assert (Hgen : forall (w : world) (b : bot) (address : string)
                        (kv : list (string * value))
                        (balance total_received total_sent : Z) (n_tx : value)
                        (fb fr fs : spec_float),
      http w (utxo_url "btc" address) [] = Ok (mkResponse 200 (Some (VDict kv))) ->
      Py.assoc kv "balance" = Some (VInt balance) ->
      Py.assoc kv "total_received" = Some (VInt total_received) ->
      Py.assoc kv "total_sent" = Some (VInt total_sent) ->
      Py.assoc kv "n_tx" = Some n_tx ->
      Py.int_true_div balance 100000000 = Ok fb ->
      Py.int_true_div total_received 100000000 = Ok fr ->
      Py.int_true_div total_sent 100000000 = Ok fs ->
      check_bitcoin address w b =
        ([HttpGet (utxo_url "btc" address) []], b,
         Ok (FStr [Lit "Bitcoin Address: "; Fmt (VStr address);
                   Lit (NL +:+ "Balance: "); Fmt (VFloat fb);
                   Lit (" BTC" +:+ NL +:+ "Total Received: "); Fmt (VFloat fr);
                   Lit (" BTC" +:+ NL +:+ "Total Sent: "); Fmt (VFloat fs);
                   Lit (" BTC" +:+ NL +:+ "Transactions: "); Fmt n_tx]))).
  { intros w b address kv balance total_received total_sent n_tx fb fr fs
           Hget Hb Hr Hs Hn Hfb Hfr Hfs.
    unfold check_bitcoin, check_utxo. run_io.
    rewrite Hget. cbn. rewrite Hb, Hr, Hs, Hn.
    unfold Py.truediv. cbn [Py.int_of_bool].
    rewrite Hfb, Hfr, Hfs. reflexivity. }
  split; [exact Hgen|]. split; [|split; reflexivity].
  intros w b address kv Hget Hb Hr Hs Hn.
  apply (Hgen w b address kv 150000000 150000000 0 (VInt 1)
              one_and_a_half one_and_a_half (S754_zero false));
    (assumption || reflexivity).
Qed.

Lemma check_bitcoin_satoshi_report_witness :
  check_bitcoin btc_example (stub_world (answer 200 (Some btc_body))) fresh_bot =
    ([HttpGet (utxo_url "btc" btc_example) []], fresh_bot,
     Ok (FStr [Lit "Bitcoin Address: "; Fmt (VStr btc_example);
               Lit (NL +:+ "Balance: "); Fmt (VFloat one_and_a_half);
               Lit (" BTC" +:+ NL +:+ "Total Received: ");
               Fmt (VFloat one_and_a_half);
               Lit (" BTC" +:+ NL +:+ "Total Sent: ");
               Fmt (VFloat (S754_zero false));
               Lit (" BTC" +:+ NL +:+ "Transactions: "); Fmt (VInt 1)])).
Proof.
  apply (proj1 (proj2 check_bitcoin_satoshi_report)
           (stub_world (answer 200 (Some btc_body))) fresh_bot btc_example
           [("balance", VInt 150000000); ("total_received", VInt 150000000);
            ("total_sent", VInt 0); ("n_tx", VInt 1)]);
    reflexivity.
Defined.

(** The same division at another amount: 1 satoshi is the float nearest to
    one hundred-millionth, and 2.1 * 10^15 satoshi are 21000000.0. *)
Example check_bitcoin_other_amounts :
  result_of (check_bitcoin btc_example
               (stub_world (answer 200 (Some (VDict
                  [("balance", VInt 1); ("total_received", VInt 2100000000000000);
                   ("total_sent", VInt 0); ("n_tx", VInt 7)]))))
               fresh_bot)
  = Ok (FStr [Lit "Bitcoin Address: "; Fmt (VStr btc_example);
              Lit (NL +:+ "Balance: ");
              Fmt (VFloat (S754_finite false 6044629098073146 (-79)));
              Lit (" BTC" +:+ NL +:+ "Total Received: ");
              Fmt (VFloat (S754_finite false 5637144576000000 (-28)));
              Lit (" BTC" +:+ NL +:+ "Total Sent: ");
              Fmt (VFloat (S754_zero false));
              Lit (" BTC" +:+ NL +:+ "Transactions: "); Fmt (VInt 7)]).
Proof. reflexivity. Qed.

(** C7. When the etherscan key is absent from the environment, unset or
    empty, the Ethereum adapter and the USDT-ERC20 adapter return, for every
    address, the missing-credential message and issue no HTTP request. *)
Theorem missing_etherscan_key_short_circuits (env : environ) (w : world) (b : bot)
    (address : string) :
  getenv env "ETHERSCAN_API_KEY" = None \/ getenv env "ETHERSCAN_API_KEY" = Some "" ->
  check_ethereum (API_KEYS env) address w b = ([], b, Ok missing_key_text)
  /\ check_ethereum_usdt (API_KEYS env) address w b = ([], b, Ok missing_key_text).
Proof.
  intros H. apply missing_key.
  unfold API_KEYS, getenv_default, getenv in *. cbn.
  destruct H as [-> | ->]; reflexivity.
Qed.

Lemma missing_etherscan_key_short_circuits_witness :
  check_ethereum (API_KEYS ∅) eth_example (stub_world (answer 200 None)) fresh_bot
    = ([], fresh_bot, Ok missing_key_text)
  /\ check_ethereum_usdt (API_KEYS ∅) eth_example (stub_world (answer 200 None))
       fresh_bot
    = ([], fresh_bot, Ok missing_key_text).
Proof.
  apply (missing_etherscan_key_short_circuits ∅ (stub_world (answer 200 None))
           fresh_bot eth_example).
  left. reflexivity.
Defined.

(** *** The USDT-TRC20 token list *)

Lemma scan_tokens_absent (tokens : list value) :
  forallb is_other_token tokens = true -> scan_tokens tokens = Ok (VInt 0).
Proof.
  induction tokens as [|token rest IH]; simpl; [reflexivity|].
  intros H. apply andb_true_iff in H as [Ht Hrest].
  destruct token as [| | | | |l|kv]; try discriminate.
  unfold mbind, result_bind. cbn.
  unfold is_other_token in Ht. apply negb_true_iff in Ht. rewrite Ht.
  now apply IH.
Qed.

Lemma scan_tokens_found (pre post : list value) (kv : list (string * value))
    (n : Z) (q : value) :
  forallb is_other_token pre = true ->
  Py.assoc kv "tokenId" = Some (VStr usdt_trc20_contract) ->
  Py.int (match Py.assoc kv "balance" with Some v => v | None => VInt 0 end) = Ok n ->
  Py.truediv (VInt n) float_1e6 = Ok q ->
  scan_tokens (pre ++ VDict kv :: post) = Ok q.
Proof.
  intros Hpre Hid Hint Hdiv.
  induction pre as [|token rest IH]; simpl.
  - unfold mbind, result_bind. cbn. rewrite Hid. cbn. rewrite Hint. exact Hdiv.
  - simpl in Hpre. apply andb_true_iff in Hpre as [Ht Hrest].
    destruct token as [| | | | |l|kv']; try discriminate.
    unfold mbind, result_bind. cbn.
    unfold is_other_token in Ht. apply negb_true_iff in Ht. rewrite Ht.
    now apply IH.
Qed.

(** C6, as the code has it. When the provider answers the USDT-TRC20
    adapter HTTP 200 with a true [success] and a token list,
    - a list that is not empty and whose entries are objects of other
      tokens gives the report with balance 0;
    - the balance is taken from the first entry of the contract wherever it
      stands in the list, the entries before it being objects of other
      tokens;
    - the empty list gives the no-data message. *)
Theorem check_tron_usdt_token_list (keys : api_keys) (w : world) (b : bot)
    (address : string) (kv : list (string * value)) (success : value)
    (tokens : list value) :
  http w (tron_usdt_url address) (tron_headers keys)
    = Ok (mkResponse 200 (Some (VDict kv))) ->
  Py.assoc kv "success" = Some success ->
  Py.truthy success = true ->
  Py.assoc kv "data" = Some (VList tokens) ->
  let run := check_tron_usdt keys address w b in
  let events := [HttpGet (tron_usdt_url address) (tron_headers keys)] in
  (tokens <> [] -> forallb is_other_token tokens = true ->
   run = (events, b, Ok (usdt_trc20_report address (VInt 0))))
  /\ (forall pre post entry n q,
        tokens = (pre ++ VDict entry :: post)%list ->
        forallb is_other_token pre = true ->
        Py.assoc entry "tokenId" = Some (VStr usdt_trc20_contract) ->
        Py.int (match Py.assoc entry "balance" with Some v => v | None => VInt 0 end)
          = Ok n ->
        Py.truediv (VInt n) float_1e6 = Ok q ->
        run = (events, b, Ok (usdt_trc20_report address q)))
  /\ (tokens = [] ->
      run = (events, b,
             Ok (FStr [Lit "No USDT (TRC20) tokens found for address: ";
                       Fmt (VStr address)]))).
Proof.
  intros Hget Hsucc Htrue Hdata run events. subst run events.
  unfold check_tron_usdt, success_with_data. run_io.
  rewrite Hget. cbn. rewrite Hsucc, Htrue, Hdata. cbn.
  split; [|split].
  - intros Hne Hall. destruct tokens as [|t ts]; [congruence|].
    rewrite (scan_tokens_absent _ Hall). reflexivity.
  - intros pre post entry n q -> Hpre Hid Hint Hdiv.
    destruct (pre ++ VDict entry :: post)%list eqn:E.
    + destruct pre; discriminate.
    + rewrite <- E, (scan_tokens_found pre post entry n q Hpre Hid Hint Hdiv).
      reflexivity.
  - intros ->. reflexivity.
Qed.

Lemma check_tron_usdt_token_list_witness :
  check_tron_usdt some_keys tron_example
    (stub_world (answer 200 (Some (VDict
       [("success", VBool true);
        ("data", VList [VDict [("tokenId", VStr "1002000"); ("balance", VStr "7")]])]))))
    fresh_bot
  = ([HttpGet (tron_usdt_url tron_example) (tron_headers some_keys)], fresh_bot,
     Ok (usdt_trc20_report tron_example (VInt 0))).
Proof.
  apply (proj1 (check_tron_usdt_token_list some_keys
                  (stub_world (answer 200 (Some (VDict
                     [("success", VBool true);
                      ("data", VList [VDict [("tokenId", VStr "1002000");
                                             ("balance", VStr "7")]])]))))
                  fresh_bot tron_example
                  [("success", VBool true);
                   ("data", VList [VDict [("tokenId", VStr "1002000");
                                          ("balance", VStr "7")]])]
                  (VBool true)
                  [VDict [("tokenId", VStr "1002000"); ("balance", VStr "7")]]
                  eq_refl eq_refl eq_refl eq_refl)).
  - discriminate.
  - reflexivity.
Defined.

(** C6, as the specification states it, fails on the empty token list: it omits
    the contract, and the adapter answers with the no-data message instead
    of a report with balance 0. *)
Lemma check_tron_usdt_empty_list_counterexample :
  let tokens : list value := [] in
  let w := stub_world (answer 200 (Some (VDict [("success", VBool true);
                                                ("data", VList tokens)]))) in
  forallb is_other_token tokens = true
  /\ result_of (check_tron_usdt some_keys tron_example w fresh_bot)
     = Ok (FStr [Lit "No USDT (TRC20) tokens found for address: ";
                 Fmt (VStr tron_example)])
  /\ result_of (check_tron_usdt some_keys tron_example w fresh_bot)
     <> Ok (usdt_trc20_report tron_example (VInt 0)).
Proof.
  cbv zeta. split; [reflexivity|]. split; [reflexivity|].
  vm_compute. discriminate.
Qed.

(** The scan does find the contract behind another entry. *)
Example check_tron_usdt_second_entry :
  result_of (check_tron_usdt some_keys tron_example
    (stub_world (answer 200 (Some (VDict
       [("success", VBool true);
        ("data", VList [VDict [("tokenId", VStr "1002000"); ("balance", VStr "7")];
                        VDict [("tokenId", VStr usdt_trc20_contract);
                               ("balance", VStr "1500000")]])]))))
    fresh_bot)
  = Ok (usdt_trc20_report tron_example (VFloat one_and_a_half)).
Proof. reflexivity. Qed.

(** *** The two requests of the Ethereum adapter *)

(** C4, as the code has it. Once the balance request has succeeded with
    provider status '1' and a balance that converts,
    - a transaction-list answer that decodes to an object whose [status] is
      not '1' degrades the count to 0, whatever its HTTP status, and the
      report carries the converted balance;
    - a transaction-list request that raises makes the whole lookup raise
      the same exception: no report is produced. *)
Theorem check_ethereum_second_request (keys : api_keys) (w : world) (b : bot)
    (address : string) (data result : value) (n : Z) (balance : value) :
  etherscan keys <> "" ->
  http w (eth_balance_url keys address) [] = Ok (mkResponse 200 (Some data)) ->
  Py.getitem data "status" = Ok (VStr "1") ->
  Py.getitem data "result" = Ok result ->
  Py.int result = Ok n ->
  Py.truediv (VInt n) float_1e18 = Ok balance ->
  let run := check_ethereum keys address w b in
  let events := [HttpGet (eth_balance_url keys address) [];
                 HttpGet (eth_txlist_url keys address) []] in
  (forall tx_response tx_data tx_status,
      http w (eth_txlist_url keys address) [] = Ok tx_response ->
      body tx_response = Some tx_data ->
      Py.getitem tx_data "status" = Ok tx_status ->
      Py.eq_str tx_status "1" = false ->
      run = (events, b, Ok (ethereum_report address balance 0)))
  /\ (forall e,
        http w (eth_txlist_url keys address) [] = Raise e ->
        run = (events, b, Raise e)).
Proof.
  intros Hk Hget Hst Hres Hint Hdiv run events. subst run events.
  unfold check_ethereum. apply String.eqb_neq in Hk. rewrite Hk.
  run_io. rewrite Hget. cbn. rewrite Hst. cbn. rewrite Hres. cbn.
  rewrite Hint. cbn. rewrite Hdiv.
  split.
  - intros tx_response tx_data tx_status Htx Hbody Htxst Hne.
    rewrite Htx, Hbody, Htxst. cbn. rewrite Hne. reflexivity.
  - intros e Htx. rewrite Htx. reflexivity.
Qed.

Lemma check_ethereum_second_request_witness :
  check_ethereum some_keys eth_example
    (eth_world (Ok (mkResponse 200 (Some (VDict
       [("status", VStr "0"); ("message", VStr "No transactions found");
        ("result", VList [])])))))
    fresh_bot
  = ([HttpGet (eth_balance_url some_keys eth_example) [];
      HttpGet (eth_txlist_url some_keys eth_example) []], fresh_bot,
     Ok (ethereum_report eth_example (VFloat one_and_a_half) 0)).
Proof.
  apply (proj1 (check_ethereum_second_request some_keys
                  (eth_world (Ok (mkResponse 200 (Some (VDict
                     [("status", VStr "0"); ("message", VStr "No transactions found");
                      ("result", VList [])])))))
                  fresh_bot eth_example eth_balance_body
                  (VStr "1500000000000000000") 1500000000000000000
                  (VFloat one_and_a_half)
                  ltac:(discriminate) eq_refl eq_refl eq_refl eq_refl eq_refl)
          (mkResponse 200 (Some (VDict
             [("status", VStr "0"); ("message", VStr "No transactions found");
              ("result", VList [])])))
          (VDict [("status", VStr "0"); ("message", VStr "No transactions found");
                  ("result", VList [])])
          (VStr "0"));
    reflexivity.
Defined.

(** C4, as the specification states it, fails when the transaction-list request
    raises: the balance request had succeeded with status '1', and the
    lookup ends in the exception, without a report. *)
Lemma check_ethereum_second_request_counterexample :
  let w := eth_world (Raise RequestException) in
  http w (eth_balance_url some_keys eth_example) []
    = Ok (mkResponse 200 (Some eth_balance_body))
  /\ Py.getitem eth_balance_body "status" = Ok (VStr "1")
  /\ check_ethereum some_keys eth_example w fresh_bot
     = ([HttpGet (eth_balance_url some_keys eth_example) [];
         HttpGet (eth_txlist_url some_keys eth_example) []], fresh_bot,
        Raise RequestException).
Proof. cbv zeta. repeat split. Qed.

(** The same loss with an answer instead of an exception: the second
    response is not inspected for its status, and a body that is not JSON
    makes [json()] raise. *)
Example check_ethereum_second_response_not_json :
  result_of (check_ethereum some_keys eth_example
               (eth_world (Ok (mkResponse 502 None))) fresh_bot)
  = Raise JSONDecodeError.
Proof. reflexivity. Qed.

(** ** The dispatch engine *)

Section Dispatch.

Variable keys : api_keys.
Variables (w : world) (b : bot).
Variables (room address crypto_type user : string).


Lemma check_address_adapter_raises (api : string -> io text)
    (tr : list event) (b' : bot) (e : exn) :
  crypto_apis keys crypto_type = Some api ->
  api address w b = (tr, b', Raise e) ->
  chat_send w room
    (checking_notice address crypto_type (get_user_language b user)) = Ok tt ->
  chat_send w room (error_notice (get_user_language b user)) = Ok tt ->
  check_address keys room address crypto_type user w b =
    ((SendText room
        (checking_notice address crypto_type (get_user_language b user)) :: tr) ++
     [LogError (FStr [Lit "Error checking address "; Fmt (VStr address);
                      Lit ": "; FmtExn e]);
      SendText room (error_notice (get_user_language b user))], b', Ok tt)%list.
Proof.
  intros Hapi Hrun Hsend1 Hsend2.
  unfold check_address. run_io. rewrite Hsend1, Hapi. cbn.
  rewrite Hrun. cbn. rewrite Hsend2. reflexivity.
Qed.

(** Whatever the adapter does, the handling of an address returns
    normally as long as the chat server takes the messages. *)
Lemma check_address_returns :
  (forall t, chat_send w room t = Ok tt) ->
  result_of (check_address keys room address crypto_type user w b) = Ok tt.
Proof.
  intros Hsend. unfold check_address. run_io. rewrite Hsend.
  destruct (crypto_apis keys crypto_type) as [api|]; cbn.
  - destruct (api address w b) as [[tr b'] [reply|e]]; cbn;
      rewrite Hsend; reflexivity.
  - rewrite Hsend. reflexivity.
Qed.

End Dispatch.


(** The other failures an adapter reports by its text reach the
    conversation the same way: the provider's message, the missing key, the
    absence of data. *)
Example check_address_exposes_provider_message :
  sent_texts (trace_of
    (check_address some_keys "!room" eth_example "ethereum" "@alice:example.org"
       (stub_world (answer 200 (Some (VDict [("status", VStr "0");
                                             ("message", VStr "NOTOK");
                                             ("result", VStr "Invalid API Key")]))))
       fresh_bot))
  = [checking_notice eth_example "ethereum" "ru";
     FStr [Lit "Error checking Ethereum address: "; Fmt (VStr "NOTOK")]].
Proof. reflexivity. Qed.

Example check_address_exposes_missing_key :
  sent_texts (trace_of
    (check_address no_keys "!room" eth_example "ethereum" "@alice:example.org"
       (stub_world (answer 200 None)) fresh_bot))
  = [checking_notice eth_example "ethereum" "ru"; missing_key_text].
Proof. reflexivity. Qed.

Example check_address_exposes_no_data :
  sent_texts (trace_of
    (check_address no_keys "!room" tron_example "tron" "@alice:example.org"
       (stub_world (answer 200 (Some (VDict [("success", VBool true);
                                             ("data", VList [])]))))
       fresh_bot))
  = [checking_notice tron_example "tron" "ru";
     FStr [Lit "No data found for TRON address: "; Fmt (VStr tron_example)]].
Proof. reflexivity. Qed.

(** The handler of room messages returns normally too, whatever the
    message, as long as the chat server takes the replies. *)
Lemma handle_message_returns (keys : api_keys) (w : world) (b : bot)
    (ev : message_event) :
  (forall room t, chat_send w room t = Ok tt) ->
  result_of (handle_message keys ev w b) = Ok tt.
Proof.
  intros Hsend. unfold handle_message.
  destruct (negb (MessageType_eqb (msgtype ev) TEXT)); [reflexivity|].
  unfold mbind, prog_bind, get_world. cbn -[String.eqb].
  destruct (String.eqb (sender ev) (client_mxid w)); [reflexivity|].
  destruct (String.eqb (lower (msg_body ev)) "/ru"
            || String.eqb (lower (msg_body ev)) "/en").
  - unfold set_language. run_io. rewrite Hsend. reflexivity.
  - destruct (detect_crypto_type (msg_body ev)) as [crypto_type|].
    + pose proof (check_address_returns keys w b (room_id ev) (msg_body ev)
                    crypto_type (sender ev) (Hsend (room_id ev))) as H.
      destruct (check_address keys (room_id ev) (msg_body ev) crypto_type
                  (sender ev) w b) as [[t2 b2] r].
      exact H.
    + run_io. rewrite Hsend. reflexivity.
Qed.

(** ** Start-up *)

(** The constructor takes exactly two positional arguments. *)
Lemma CryptoCheckerBot_arity (client : string -> result unit) (args : list string)
    (b : bot) :
  CryptoCheckerBot client args = Ok b -> length args = 2%nat.
Proof.
  destruct args as [|h [|a [|x rest]]]; simpl; intros H;
    try discriminate H; reflexivity.
Qed.

(** C1. In every environment where MATRIX_HOMESERVER, MATRIX_USER_ID and
    MATRIX_ACCESS_TOKEN are set and not empty and the user id starts with
    '@', [main] writes its three INFO lines and then raises TypeError at the
    call of the constructor with three arguments: no login, no handler, no
    sync. *)
Theorem main_raises_TypeError (env : environ) (w : world) (h u a : string) :
  getenv env "MATRIX_HOMESERVER" = Some h ->
  getenv env "MATRIX_USER_ID" = Some u ->
  getenv env "MATRIX_ACCESS_TOKEN" = Some a ->
  h <> "" -> u <> "" -> a <> "" ->
  startswith_at u = true ->
  main env w tt =
    ([LogInfo (FStr [Lit "Homeserver: "; Fmt (VStr h)]);
      LogInfo (FStr [Lit "User ID: "; Fmt (VStr u)]);
      LogInfo (FStr [Lit "Access Token: "; Fmt (VStr "**********")])],
     tt, Raise TypeError)
  /\ forallb is_log_info (trace_of (main env w tt)) = true.
Proof.
  intros Hh Hu Ha Nh Nu Na Hat.
  apply String.eqb_neq in Nh, Nu, Na.
  assert (Hmain : main env w tt =
    ([LogInfo (FStr [Lit "Homeserver: "; Fmt (VStr h)]);
      LogInfo (FStr [Lit "User ID: "; Fmt (VStr u)]);
      LogInfo (FStr [Lit "Access Token: "; Fmt (VStr "**********")])],
     tt, Raise TypeError)).
  { unfold main. rewrite Hh, Hu, Ha.
    unfold mbind, prog_bind, logger_info, lift, not_set, fmt_opt.
    cbn -[String.eqb]. rewrite Nh, Nu, Na, Hat. reflexivity. }
  split; [exact Hmain|]. rewrite Hmain. reflexivity.
Qed.

Lemma main_raises_TypeError_witness :
  main start_env (stub_world (answer 200 None)) tt =
    ([LogInfo (FStr [Lit "Homeserver: "; Fmt (VStr "https://example.org")]);
      LogInfo (FStr [Lit "User ID: "; Fmt (VStr "@checker:example.org")]);
      LogInfo (FStr [Lit "Access Token: "; Fmt (VStr "**********")])],
     tt, Raise TypeError)
  /\ forallb is_log_info (trace_of (main start_env (stub_world (answer 200 None)) tt))
     = true.
Proof.
  apply (main_raises_TypeError start_env (stub_world (answer 200 None))
           "https://example.org" "@checker:example.org" "token");
    try reflexivity; discriminate.
Defined.

(** With two arguments the same start-up goes on to the login. *)
Example start_reaches_sync :
  trace_of (start (stub_world (answer 200 None)) fresh_bot)
  = [WhoAmI; LogInfo (FStr [Lit "Logged in as "; Fmt (VStr "@checker:example.org")]);
     AddEventHandler; SyncForever].
Proof. reflexivity. Qed.

(** ** The preference store *)

(** C10. After [set_language] for a user, [get_user_language] of that user
    is the language set, for 'ru', for 'en', and for any other string; of
    two calls the later one decides; a user absent from the store gets
    'ru'. *)
Theorem set_language_get_user_language :
  (forall (w : world) (b : bot) (room u l : string),
      get_user_language (state_of (set_language room u l w b)) u = l)
  /\ (forall (w : world) (b : bot) (room1 room2 u l1 l2 : string),
        get_user_language
          (state_of (set_language room2 u l2 w
                       (state_of (set_language room1 u l1 w b)))) u = l2)
  /\ (forall (b : bot) (u : string),
        user_languages b !! u = None -> get_user_language b u = "ru")
  /\ (forall (homeserver token u : string),
        get_user_language (CryptoCheckerBot_init homeserver token) u = "ru").
Proof.
  assert (Hset : forall (w : world) (b : bot) (room u l : string),
             get_user_language (state_of (set_language room u l w b)) u = l).
  { intros w b room u l. unfold set_language. run_io.
    destruct (chat_send w room (I18n "messages.language_changed" [] l));
      unfold get_user_language; cbn; now rewrite lookup_insert_eq. }
  split; [|split; [|split]].
  - exact Hset.
  - intros. apply Hset.
  - intros b u H. unfold get_user_language. now rewrite H.
  - intros. unfold get_user_language, CryptoCheckerBot_init. cbn.
    now rewrite lookup_empty.
Qed.

Lemma set_language_get_user_language_witness :
  get_user_language fresh_bot "@alice:example.org" = "ru".
Proof.
  apply (proj1 (proj2 (proj2 set_language_get_user_language)) fresh_bot
           "@alice:example.org").
  reflexivity.
Defined.

(** Setting the language of one user leaves the others as they were. *)
Lemma set_language_other_user (w : world) (b : bot) (room u v l : string) :
  u <> v ->
  get_user_language (state_of (set_language room u l w b)) v
  = get_user_language b v.
Proof.
  intros Hne. unfold set_language. run_io.
  destruct (chat_send w room (I18n "messages.language_changed" [] l));
    unfold get_user_language; cbn; now rewrite lookup_insert_ne.
Qed.

(** The commands [/en] then [/ru] of one sender, through the handler. *)
Example en_then_ru :
  let w := stub_world (answer 200 None) in
  let alice := "@alice:example.org" in
  let b1 := state_of (handle_message no_keys (mkEvent TEXT "/EN" "!room" alice)
                        w fresh_bot) in
  let b2 := state_of (handle_message no_keys (mkEvent TEXT "/ru" "!room" alice) w b1) in
  get_user_language b1 alice = "en" /\ get_user_language b2 alice = "ru".
Proof. cbv zeta. split; vm_compute; reflexivity. Qed.

(** * Further properties of the code *)

(** ** The shapes the patterns accept *)

Lemma append_cons (c : ascii) (u t : string) :
  String c u +:+ t = String c (u +:+ t).
Proof. reflexivity. Qed.

Lemma append_empty_r (u : string) : u +:+ "" = u.
Proof.
  induction u as [|c u IH]; [reflexivity|]. now rewrite append_cons, IH.
Qed.

Lemma run_Cat (r1 r2 : regex) (pos : nat) (s : string) (k : cont) :
  run (Cat r1 r2) pos s k = run r1 pos s (fun p t => run r2 p t k).
Proof. reflexivity. Qed.

Lemma run_Alt (r1 r2 : regex) (pos : nat) (s : string) (k : cont) :
  run (Alt r1 r2) pos s k = run r1 pos s k || run r2 pos s k.
Proof. reflexivity. Qed.

Lemma run_Bol0 (s : string) (k : cont) : run Bol 0 s k = k 0%nat s.
Proof. reflexivity. Qed.

Lemma run_Chr (c d : ascii) (pos : nat) (s : string) (k : cont) :
  run (Chr c) pos (String d s) k = Ascii.eqb c d && k (S pos) s.
Proof. reflexivity. Qed.

Lemma run_Cls (ranges : list (ascii * ascii)) (d : ascii) (pos : nat) (s : string)
    (k : cont) :
  run (Cls ranges) pos (String d s) k = in_class ranges d && k (S pos) s.
Proof. reflexivity. Qed.

Lemma run_Rep11 (r : regex) (pos : nat) (s : string) (k : cont) :
  run (Rep r 1 1) pos s k = run r pos s k.
Proof. simpl. now rewrite orb_false_r. Qed.

(** What a bounded repetition of a class has read when the rest of the
    pattern succeeds. *)
Lemma rep_cls_elim (ranges : list (ascii * ascii)) (hi : nat) :
  forall (lo pos : nat) (s : string) (k : cont),
    rep (run (Cls ranges)) lo hi pos s k = true ->
    exists u t,
      s = u +:+ t /\ between lo hi (String.length u)
      /\ string_all (in_class ranges) u = true
      /\ k (pos + String.length u)%nat t = true.
Proof.
  unfold between.
  induction hi as [|hi IH]; intros lo pos s k H; simpl in H.
  - destruct lo; [|discriminate].
    exists "", s. simpl. rewrite Nat.add_0_r. auto.
  - apply orb_true_iff in H as [H|H].
    + destruct s as [|d s']; [discriminate|].
      apply andb_true_iff in H as [Hd H].
      apply IH in H as (u & t & -> & [Hlo Hhi] & Hall & Hk).
      exists (String d u), t. rewrite append_cons. simpl. rewrite Hd, Hall.
      rewrite Nat.add_succ_r. repeat split; auto; lia.
    + destruct lo; [|discriminate].
      exists "", s. simpl. rewrite Nat.add_0_r. repeat split; auto; lia.
Qed.

Lemma rep_cls_intro (ranges : list (ascii * ascii)) (u : string) :
  forall (lo hi pos : nat) (t : string) (k : cont),
    between lo hi (String.length u) ->
    string_all (in_class ranges) u = true ->
    k (pos + String.length u)%nat t = true ->
    rep (run (Cls ranges)) lo hi pos (u +:+ t) k = true.
Proof.
  unfold between.
  induction u as [|d u IH]; intros lo hi pos t k [Hlo Hhi] Hall Hk;
    [change ("" +:+ t) with t | rewrite append_cons]; simpl in *.
  - rewrite Nat.add_0_r in Hk.
    assert (lo = 0%nat) by lia. subst lo.
    destruct hi; simpl; [exact Hk|]. rewrite Hk. apply orb_true_r.
  - apply andb_true_iff in Hall as [Hd Hall].
    destruct hi as [|hi]; [lia|]. simpl. rewrite Hd. simpl.
    rewrite IH; [reflexivity| lia |exact Hall|].
    now rewrite Nat.add_succ_r in Hk.
Qed.

Lemma eol_is_empty (pos : nat) (t : string) :
  run Eol pos t (fun _ t' => is_empty t') = true <-> t = "".
Proof.
  destruct t as [|c [|d t']]; simpl; split; try reflexivity; try discriminate.
  rewrite andb_false_r. discriminate.
Qed.

(** The tail of every pattern of the table, in a full match: between [lo]
    and [hi] characters of the class, and nothing else. *)
Lemma fullmatch_tail (ranges : list (ascii * ascii)) (lo hi pos : nat) (s : string) :
  run (Cat (Rep (Cls ranges) lo hi) Eol) pos s (fun _ t => is_empty t) = true
  <-> between lo hi (String.length s) /\ string_all (in_class ranges) s = true.
Proof.
  change (run (Cat (Rep (Cls ranges) lo hi) Eol) pos s (fun _ t => is_empty t))
    with (rep (run (Cls ranges)) lo hi pos s
            (fun p t => run Eol p t (fun _ t' => is_empty t'))).
  split.
  - intros H. apply rep_cls_elim in H as (u & t & -> & Hb & Hall & Hk).
    apply eol_is_empty in Hk. subst t. rewrite append_empty_r. auto.
  - intros [Hb Hall]. rewrite <- (append_empty_r s).
    apply rep_cls_intro; [exact Hb | exact Hall |]. now apply eol_is_empty.
Qed.

Lemma fullmatch_tail_ok (ranges : list (ascii * ascii)) (lo hi pos : nat) (s : string) :
  run (Cat (Rep (Cls ranges) lo hi) Eol) pos s (fun _ t => is_empty t)
  = tail_ok ranges lo hi s.
Proof.
  apply Bool.eq_iff_eq_true. rewrite fullmatch_tail. unfold tail_ok, between.
  rewrite !andb_true_iff, !Nat.leb_le. tauto.
Qed.

Lemma in_class_one (c d : ascii) : in_range d (one c) = Ascii.eqb c d.
Proof.
  unfold in_range, one. cbn [fst snd].
  destruct (Ascii.eqb_spec c d) as [->|Hne].
  - unfold Ascii.leb, Ascii.compare. now rewrite N.compare_refl.
  - apply andb_false_iff.
    destruct (Ascii.leb c d) eqn:H1; [right | now left].
    destruct (Ascii.leb d c) eqn:H2; [|reflexivity].
    exfalso. apply Hne. now apply Ascii.leb_antisym.
Qed.

Lemma fullmatch_run (r : regex) (s : string) :
  fullmatch r s = run r 0 s (fun _ t => is_empty t).
Proof. reflexivity. Qed.

Lemma fullmatch_ethereum (s : string) :
  fullmatch pat_ethereum s = ethereum_shape s.
Proof.
  rewrite fullmatch_run. unfold pat_ethereum. cbn [lit]. rewrite run_Cat, run_Bol0.
  destruct s as [|c [|d u]]; [reflexivity | |].
  - rewrite run_Cat, run_Chr. cbv beta. apply andb_false_r.
  - rewrite run_Cat, run_Chr. cbv beta. rewrite run_Cat, run_Chr. cbv beta.
    now rewrite (fullmatch_tail_ok hex_digit 40 40 2 u).
Qed.

Lemma fullmatch_tron (s : string) : fullmatch pat_tron s = tron_shape s.
Proof.
  rewrite fullmatch_run. unfold pat_tron. cbn [lit]. rewrite run_Cat, run_Bol0.
  destruct s as [|c u]; [reflexivity|].
  rewrite run_Cat, run_Chr. cbv beta.
  now rewrite (fullmatch_tail_ok alnum 33 33 1 u).
Qed.

Lemma fullmatch_dogecoin (s : string) : fullmatch pat_dogecoin s = dogecoin_shape s.
Proof.
  rewrite fullmatch_run. unfold pat_dogecoin. rewrite run_Cat, run_Bol0.
  destruct s as [|c [|d u]]; [reflexivity | |].
  - rewrite run_Cat, run_Rep11, run_Chr. cbv beta. apply andb_false_r.
  - rewrite run_Cat, run_Rep11, run_Chr. cbv beta.
    rewrite run_Cat, run_Rep11, run_Cls. cbv beta.
    now rewrite (fullmatch_tail_ok base58_doge 32 32 2 u).
Qed.

(** The first character of the litecoin pattern also admits "3". *)
Lemma fullmatch_litecoin (s : string) :
  fullmatch pat_litecoin s =
  match s with
  | String c u =>
      (Ascii.eqb "L" c || Ascii.eqb "M" c || Ascii.eqb "3" c)
      && tail_ok base58_ltc 26 33 u
  | EmptyString => false
  end.
Proof.
  rewrite fullmatch_run. unfold pat_litecoin. rewrite run_Cat, run_Bol0.
  destruct s as [|c u]; [reflexivity|].
  rewrite run_Cat, run_Cls. cbv beta.
  rewrite (fullmatch_tail_ok base58_ltc 26 33 1 u).
  unfold in_class. cbn [existsb]. rewrite !in_class_one, orb_false_r, orb_assoc.
  reflexivity.
Qed.

Lemma fullmatch_bitcoin (s : string) : fullmatch pat_bitcoin s = bitcoin_shape s.
Proof.
  rewrite fullmatch_run. unfold pat_bitcoin. rewrite run_Cat, run_Bol0. cbv beta.
  rewrite run_Cat, run_Alt.
  destruct s as [|c u]; [reflexivity|].
  rewrite run_Cls. cbv beta.
  rewrite (fullmatch_tail_ok base58_btc 25 39 1 u).
  unfold in_class at 1. cbn [existsb]. rewrite !in_class_one, orb_false_r.
  unfold bitcoin_shape. f_equal.
  rewrite run_Cat, run_Chr. cbv beta.
  destruct u as [|d [|e v]].
  - apply andb_false_r.
  - rewrite run_Cat, run_Chr. cbv beta. now rewrite !andb_false_r.
  - rewrite run_Cat, run_Chr. cbv beta. rewrite run_Chr. cbv beta.
    now rewrite (fullmatch_tail_ok base58_btc 25 39 3 v).
Qed.

Lemma string_all_impl (p q : ascii -> bool) (u : string) :
  (forall c, p c = true -> q c = true) ->
  string_all p u = true -> string_all q u = true.
Proof.
  intros Hpq. induction u as [|c u IH]; simpl; [reflexivity|].
  intros H. apply andb_true_iff in H as [Hc Hu].
  now rewrite (Hpq c Hc), (IH Hu).
Qed.

Lemma base58_ltc_in_btc (c : ascii) :
  in_class base58_ltc c = true -> in_class base58_btc c = true.
Proof.
  destruct c as [[] [] [] [] [] [] [] []]; vm_compute; intros H;
    (reflexivity || discriminate H).
Qed.

Lemma tail_ok_ltc_btc (u : string) :
  tail_ok base58_ltc 26 33 u = true -> tail_ok base58_btc 25 39 u = true.
Proof.
  unfold tail_ok. rewrite !andb_true_iff, !Nat.leb_le.
  intros [[Hlo Hhi] Hall]. repeat split; try lia.
  exact (string_all_impl _ _ u base58_ltc_in_btc Hall).
Qed.

Lemma tail_ok_length (ranges : list (ascii * ascii)) (lo hi : nat) (u : string) :
  tail_ok ranges lo hi u = true -> between lo hi (String.length u).
Proof.
  unfold tail_ok, between. rewrite !andb_true_iff, !Nat.leb_le. tauto.
Qed.

(** A string of the litecoin pattern that begins with "3" is also of the
    bitcoin pattern, which stands first. *)
Lemma litecoin_3_bitcoin_shape (u : string) :
  tail_ok base58_ltc 26 33 u = true -> bitcoin_shape (String "3" u) = true.
Proof.
  intros H. apply tail_ok_ltc_btc in H. unfold bitcoin_shape.
  apply orb_true_iff. right. now rewrite H.
Qed.

Lemma classify_spec_by_shape (s : string) : classify_spec s = classify_by_shape s.
Proof.
  unfold classify_spec, CRYPTO_PATTERNS, classify_in, classify_by_shape.
  rewrite fullmatch_bitcoin, fullmatch_ethereum, fullmatch_litecoin,
    fullmatch_tron, fullmatch_dogecoin.
  destruct (bitcoin_shape s) eqn:Hb; [reflexivity|].
  destruct (ethereum_shape s) eqn:He; [reflexivity|].
  assert (Hl : match s with
               | String c u =>
                   (Ascii.eqb "L" c || Ascii.eqb "M" c || Ascii.eqb "3" c)
                   && tail_ok base58_ltc 26 33 u
               | EmptyString => false
               end = litecoin_shape s).
  { destruct s as [|c u]; [reflexivity|]. unfold litecoin_shape.
    destruct (Ascii.eqb_spec "3"%char c) as [<-|_]; [|now rewrite orb_false_r].
    destruct (tail_ok base58_ltc 26 33 u) eqn:Ht; [|now rewrite !andb_false_r].
    rewrite (litecoin_3_bitcoin_shape u Ht) in Hb. discriminate Hb. }
  rewrite Hl.
  destruct (litecoin_shape s); [reflexivity|].
  destruct (tron_shape s); reflexivity.
Qed.

(** X1. The type [detect_crypto_type] returns is decided by the shape of the
    string without its final newline: bitcoin for "bc1", "1" or "3" and 25
    to 39 characters of [a-zA-HJ-NP-Z0-9]; ethereum for "0x" and 40
    hexadecimal digits; litecoin for "L" or "M" and 26 to 33 base58
    characters; tron for "T" and 33 letters or digits; dogecoin for "D", one
    of [5-9A-HJ-NP-U] and 32 base58 characters; none otherwise. *)
Theorem detect_crypto_type_by_shape (s : string) :
  detect_crypto_type s = classify_by_shape (chomp s).
Proof. now rewrite detect_crypto_type_chomp, classify_spec_by_shape. Qed.

(** X2. A string that begins with "3" and that the litecoin pattern accepts
    is classified as bitcoin, whose pattern stands first in the table and
    accepts it too: litecoin is never returned for such an address. *)
Theorem litecoin_pattern_3_is_bitcoin (u : string) :
  fullmatch pat_litecoin (String "3" u) = true ->
  detect_crypto_type (String "3" u) = Some "bitcoin".
Proof.
  intros Hl.
  rewrite fullmatch_litecoin in Hl. apply andb_true_iff in Hl as [_ Ht].
  rewrite detect_crypto_type_chomp.
  assert (Hid : chomp (String "3" u) = String "3" u).
  { apply chomp_id. apply tail_ok_ltc_btc in Ht.
    unfold tail_ok in Ht. apply andb_true_iff in Ht as [_ Hall].
    assert (Hgen : forall (c : ascii) (v : string),
               Ascii.eqb c newline = false ->
               string_all (in_class base58_btc) v = true ->
               ends_with_newline (String c v) = false).
    { intros c v. revert c. induction v as [|d v IH]; intros c Hc Hv.
      - exact Hc.
      - simpl in Hv. apply andb_true_iff in Hv as [Hd Hv].
        change (ends_with_newline (String c (String d v)))
          with (ends_with_newline (String d v)).
        apply IH; [|exact Hv].
        destruct (Ascii.eqb_spec d newline) as [->|]; [discriminate Hd|reflexivity]. }
    now apply Hgen. }
  rewrite Hid, classify_spec_by_shape. unfold classify_by_shape.
  now rewrite (litecoin_3_bitcoin_shape u Ht).
Qed.

Lemma litecoin_pattern_3_is_bitcoin_witness :
  detect_crypto_type "3CDJNfdWX8m2NwuGUV3nhXHXEeLygMXoAj" = Some "bitcoin".
Proof.
  apply (litecoin_pattern_3_is_bitcoin "CDJNfdWX8m2NwuGUV3nhXHXEeLygMXoAj").
  reflexivity.
Defined.

Lemma detect_length_bounds (s crypto_type : string) :
  detect_crypto_type s = Some crypto_type ->
  exists lo hi,
    address_lengths crypto_type = Some (lo, hi)
    /\ between lo hi (String.length (chomp s)).
Proof.
  rewrite detect_crypto_type_chomp, classify_spec_by_shape.
  generalize (chomp s) as t. intros t. unfold classify_by_shape, between.
  destruct (bitcoin_shape t) eqn:Hb.
  { intros H. inversion H; subst crypto_type. exists 26%nat, 42%nat.
    split; [reflexivity|].
    destruct t as [|c u]; [discriminate Hb|]. unfold bitcoin_shape in Hb.
    apply orb_true_iff in Hb as [Hb|Hb].
    - destruct u as [|d [|e v]]; try discriminate Hb.
      do 3 (apply andb_true_iff in Hb as [_ Hb]).
      apply tail_ok_length in Hb. unfold between in Hb. simpl. lia.
    - apply andb_true_iff in Hb as [_ Hb].
      apply tail_ok_length in Hb. unfold between in Hb. simpl. lia. }
  destruct (ethereum_shape t) eqn:He.
  { intros H. inversion H; subst crypto_type. exists 42%nat, 42%nat.
    split; [reflexivity|].
    destruct t as [|c [|d u]]; try discriminate He. unfold ethereum_shape in He.
    do 2 (apply andb_true_iff in He as [_ He]).
    apply tail_ok_length in He. unfold between in He. simpl. lia. }
  destruct (litecoin_shape t) eqn:Hl.
  { intros H. inversion H; subst crypto_type. exists 27%nat, 34%nat.
    split; [reflexivity|].
    destruct t as [|c u]; try discriminate Hl. unfold litecoin_shape in Hl.
    apply andb_true_iff in Hl as [_ Hl].
    apply tail_ok_length in Hl. unfold between in Hl. simpl. lia. }
  destruct (tron_shape t) eqn:Ht.
  { intros H. inversion H; subst crypto_type. exists 34%nat, 34%nat.
    split; [reflexivity|].
    destruct t as [|c u]; try discriminate Ht. unfold tron_shape in Ht.
    apply andb_true_iff in Ht as [_ Ht].
    apply tail_ok_length in Ht. unfold between in Ht. simpl. lia. }
  destruct (dogecoin_shape t) eqn:Hd; [|discriminate].
  intros H. inversion H; subst crypto_type. exists 34%nat, 34%nat.
  split; [reflexivity|].
  destruct t as [|c [|d u]]; try discriminate Hd. unfold dogecoin_shape in Hd.
  do 2 (apply andb_true_iff in Hd as [_ Hd]).
  apply tail_ok_length in Hd. unfold between in Hd. simpl. lia.
Qed.

(** X3. A string is classified only when its length, the final newline not
    counted, lies within the lengths of the addresses of the type returned:
    26 to 42 for bitcoin, 42 for ethereum, 27 to 34 for litecoin, 34 for
    tron and for dogecoin. *)
Theorem detect_crypto_type_length (s crypto_type : string) :
  detect_crypto_type s = Some crypto_type ->
  exists lo hi,
    address_lengths crypto_type = Some (lo, hi)
    /\ between lo hi (String.length (chomp s)).
Proof. apply detect_length_bounds. Qed.

Lemma detect_crypto_type_length_witness :
  exists lo hi,
    address_lengths "tron" = Some (lo, hi)
    /\ between lo hi (String.length (chomp tron_example)).
Proof.
  apply (detect_crypto_type_length tron_example "tron"). reflexivity.
Defined.

(** ** What the adapters do to the outside *)

Section RequestsOnly.

Context {A B : Type}.

Lemma requests_only_ret (n : nat) (a : A) : requests_only n (mret a : io A).
Proof. intros w b. cbn. repeat split; lia. Qed.

Lemma requests_only_lift (r : result A) : requests_only 0 (lift r : io A).
Proof. intros w b. cbn. repeat split; lia. Qed.

Lemma requests_only_bind_pure (n : nat) (m : io A) (f : A -> io B) :
  requests_only 0 m ->
  (forall a, requests_only n (f a)) ->
  requests_only n (m ≫= f).
Proof.
  intros Hm Hf w b. specialize (Hm w b).
  unfold mbind, prog_bind, state_of, trace_of in *.
  destruct (m w b) as [[t1 b1] [a|e]]; cbn in *.
  - destruct Hm as (-> & _ & Hlen).
    destruct t1; [|cbn in Hlen; lia].
    specialize (Hf a w b). unfold state_of, trace_of in Hf.
    destruct (f a w b) as [[t2 b2] r]. exact Hf.
  - destruct Hm as (-> & Hall & Hlen). repeat split; [exact Hall | lia].
Qed.

End RequestsOnly.

Lemma requests_only_json (r : response) : requests_only 0 (json r : io value).
Proof. apply requests_only_lift. Qed.

Lemma requests_only_bind_get {B : Type} (n : nat) (url : string)
    (headers : list (string * string)) (f : response -> io B) :
  (forall r, requests_only n (f r)) ->
  requests_only (S n) (requests_get url headers ≫= f).
Proof.
  intros Hf w b.
  unfold mbind, prog_bind, requests_get, state_of, trace_of. cbn.
  destruct (http w url headers) as [r|e]; cbn.
  - specialize (Hf r w b). unfold state_of, trace_of in Hf.
    destruct (f r w b) as [[t2 b2] res]. cbn in *.
    destruct Hf as (-> & Hall & Hlen). repeat split; [exact Hall | lia].
  - repeat split; lia.
Qed.

Ltac requests_only_step :=
  first
    [ apply requests_only_ret
    | apply requests_only_bind_get; intros ?
    | apply requests_only_bind_pure;
      [ first [apply requests_only_lift | apply requests_only_json] | intros ? ]
    | match goal with
      | |- requests_only _ (if ?c then _ else _) => destruct c
      end ].

Lemma check_utxo_requests_only (segment coin ticker address : string) :
  requests_only 1 (check_utxo segment coin ticker address).
Proof. unfold check_utxo. repeat requests_only_step. Qed.

Lemma check_ethereum_requests_only (keys : api_keys) (address : string) :
  requests_only 2 (check_ethereum keys address).
Proof. unfold check_ethereum. repeat requests_only_step. Qed.

Lemma check_ethereum_usdt_requests_only (keys : api_keys) (address : string) :
  requests_only 1 (check_ethereum_usdt keys address).
Proof. unfold check_ethereum_usdt. repeat requests_only_step. Qed.

Lemma check_tron_requests_only (keys : api_keys) (address : string) :
  requests_only 1 (check_tron keys address).
Proof. unfold check_tron. repeat requests_only_step. Qed.

Lemma check_tron_usdt_requests_only (keys : api_keys) (address : string) :
  requests_only 1 (check_tron_usdt keys address).
Proof. unfold check_tron_usdt. repeat requests_only_step. Qed.

Lemma requests_only_le {A : Type} (n n' : nat) (m : io A) :
  (n <= n')%nat -> requests_only n m -> requests_only n' m.
Proof.
  intros Hle Hm w b. destruct (Hm w b) as (Hs & Hall & Hlen).
  repeat split; [exact Hs | exact Hall | lia].
Qed.

Lemma crypto_apis_requests_only (keys : api_keys) (crypto_type address : string)
    (api : string -> io text) :
  crypto_apis keys crypto_type = Some api ->
  requests_only (if String.eqb crypto_type "ethereum" then 2 else 1) (api address).
Proof.
  unfold crypto_apis.
  destruct (String.eqb_spec crypto_type "bitcoin") as [->|_].
  { intros H; inversion H. apply check_utxo_requests_only. }
  destruct (String.eqb_spec crypto_type "ethereum") as [->|_].
  { intros H; inversion H. apply check_ethereum_requests_only. }
  destruct (String.eqb_spec crypto_type "litecoin") as [->|_].
  { intros H; inversion H. apply check_utxo_requests_only. }
  destruct (String.eqb_spec crypto_type "tron") as [->|_].
  { intros H; inversion H. apply check_tron_requests_only. }
  destruct (String.eqb_spec crypto_type "usdt_trc20") as [->|_].
  { intros H; inversion H. apply check_tron_usdt_requests_only. }
  destruct (String.eqb_spec crypto_type "usdt_erc20") as [->|_].
  { intros H; inversion H. apply check_ethereum_usdt_requests_only. }
  destruct (String.eqb_spec crypto_type "dogecoin") as [->|_]; [|discriminate].
  intros H; inversion H. apply check_utxo_requests_only.
Qed.

(** X4. Whatever the providers answer, an adapter of [crypto_apis] leaves
    the bot unchanged, sends no message, writes no log, and issues at most
    one GET request, at most two for ethereum. *)
Theorem adapter_requests_only (keys : api_keys) (crypto_type address : string)
    (api : string -> io text) :
  crypto_apis keys crypto_type = Some api ->
  requests_only (if String.eqb crypto_type "ethereum" then 2 else 1) (api address).
Proof. apply crypto_apis_requests_only. Qed.

Lemma adapter_requests_only_witness :
  requests_only 2 (check_ethereum some_keys eth_example).
Proof.
  apply (adapter_requests_only some_keys "ethereum" eth_example
           (check_ethereum some_keys)).
  reflexivity.
Defined.

(** ** One address, one answer *)

Lemma http_get_only (tr : list event) :
  forallb is_http_get tr = true ->
  sent_texts tr = [] /\ logged_errors tr = []
  /\ List.length (requests_of tr) = List.length tr.
Proof.
  induction tr as [|e tr IH]; [now auto|].
  intros H. cbn in H. apply andb_true_iff in H as [He Htr].
  destruct (IH Htr) as (Hs & Hl & Hr).
  destruct e; try discriminate He.
  unfold sent_texts, logged_errors, requests_of in *. cbn.
  rewrite Hs, Hl, Hr. auto.
Qed.

Lemma check_address_run (keys : api_keys) (w : world) (b : bot)
    (room address crypto_type user : string) :
  (forall t, chat_send w room t = Ok tt) ->
  exists tr final errors,
    check_address keys room address crypto_type user w b =
      ((SendText room (checking_notice address crypto_type (get_user_language b user))
          :: tr) ++ errors ++ [SendText room final], b, Ok tt)%list
    /\ forallb is_http_get tr = true
    /\ (List.length tr <= 2)%nat
    /\ (errors = [] \/ exists t, errors = [LogError t]).
Proof.
  intros Hsend. unfold check_address. run_io. rewrite Hsend.
  destruct (crypto_apis keys crypto_type) as [api|] eqn:Hapi; cbn.
  - destruct (crypto_apis_requests_only keys crypto_type address api Hapi w b)
      as (Hst & Hall & Hlen).
    assert (Hlen2 : (List.length (trace_of (api address w b)) <= 2)%nat).
    { destruct (String.eqb crypto_type "ethereum"); lia. }
    unfold state_of, trace_of in *.
    destruct (api address w b) as [[tr b'] [reply|e]]; cbn in *; subst b';
      rewrite Hsend; cbn.
    + exists tr, reply, []. rewrite app_nil_l. auto.
    + exists tr, (error_notice (get_user_language b user)),
        [LogError (FStr [Lit "Error checking address "; Fmt (VStr address);
                         Lit ": "; FmtExn e])].
      repeat split; eauto.
  - rewrite Hsend. cbn.
    exists [], (I18n "messages.unsupported_crypto" [] (get_user_language b user)), [].
    cbn. repeat split; auto.
Qed.

(** X5. As long as the chat server takes the messages, handling an address
    sends exactly two messages to the room, the checking notice and then
    one final text; it issues at most two GET requests, writes at most one
    ERROR line to the log, and leaves the bot unchanged. *)
Theorem check_address_two_messages (keys : api_keys) (w : world) (b : bot)
    (room address crypto_type user : string) :
  (forall t, chat_send w room t = Ok tt) ->
  let run := check_address keys room address crypto_type user w b in
  (exists final,
      sent_texts (trace_of run)
      = [checking_notice address crypto_type (get_user_language b user); final])
  /\ (List.length (requests_of (trace_of run)) <= 2)%nat
  /\ (List.length (logged_errors (trace_of run)) <= 1)%nat
  /\ state_of run = b.
Proof.
  intros Hsend run. subst run.
  destruct (check_address_run keys w b room address crypto_type user Hsend)
    as (tr & final & errors & -> & Hall & Hlen & Herr).
  destruct (http_get_only tr Hall) as (Hs & Hl & Hr).
  unfold trace_of, state_of, sent_texts, logged_errors, requests_of in *.
  cbn [fst snd]. rewrite !flat_map_app. cbn. rewrite Hs, Hl, !length_app, Hr.
  destruct Herr as [-> | [t ->]]; cbn;
    (split; [now exists final|]); repeat split; cbn; lia.
Qed.

Lemma check_address_two_messages_witness :
  (exists final,
      sent_texts (trace_of (check_address some_keys "!room" eth_example "ethereum"
                              "@alice:example.org" (eth_world (Raise RequestException))
                              fresh_bot))
      = [checking_notice eth_example "ethereum"
           (get_user_language fresh_bot "@alice:example.org"); final])
  /\ (List.length (requests_of (trace_of
        (check_address some_keys "!room" eth_example "ethereum"
           "@alice:example.org" (eth_world (Raise RequestException)) fresh_bot)))
      <= 2)%nat
  /\ (List.length (logged_errors (trace_of
        (check_address some_keys "!room" eth_example "ethereum"
           "@alice:example.org" (eth_world (Raise RequestException)) fresh_bot)))
      <= 1)%nat
  /\ state_of (check_address some_keys "!room" eth_example "ethereum"
                 "@alice:example.org" (eth_world (Raise RequestException)) fresh_bot)
     = fresh_bot.
Proof.
  apply (check_address_two_messages some_keys (eth_world (Raise RequestException))
           fresh_bot "!room" eth_example "ethereum" "@alice:example.org").
  intros t. reflexivity.
Defined.

(** ** The dispatch boundary *)

Section Boundary.

Variable keys : api_keys.
Variables (w : world) (b : bot).
Variables (room address crypto_type user : string).



End Boundary.

Section FailureTexts.

Variable keys : api_keys.
Variables (w : world) (b : bot).
Variable address : string.






End FailureTexts.






(** ** The message handler and the preference store *)

Lemma check_address_state (keys : api_keys) (w : world) (b : bot)
    (room address crypto_type user : string) :
  state_of (check_address keys room address crypto_type user w b) = b.
Proof.
  unfold check_address. run_io.
  destruct (chat_send w room
              (checking_notice address crypto_type (get_user_language b user)))
    as [[]|e0]; cbn; [|reflexivity].
  destruct (crypto_apis keys crypto_type) as [api|] eqn:Hapi; cbn.
  - destruct (crypto_apis_requests_only keys crypto_type address api Hapi w b)
      as (Hst & _).
    unfold state_of in *.
    destruct (api address w b) as [[tr b'] [reply|e]]; cbn in *; subst b'.
    + destruct (chat_send w room reply) as [[]|e1]; cbn; [reflexivity|].
      destruct (chat_send w room (error_notice (get_user_language b user)));
        reflexivity.
    + destruct (chat_send w room (error_notice (get_user_language b user)));
        reflexivity.
  - destruct (chat_send w room
                (I18n "messages.unsupported_crypto" [] (get_user_language b user)))
      as [[]|e1]; cbn; [reflexivity|].
    destruct (chat_send w room (error_notice (get_user_language b user)));
      reflexivity.
Qed.

Lemma set_language_state (w : world) (b : bot) (room user lang : string) :
  state_of (set_language room user lang w b) =
    {| bot_homeserver := bot_homeserver b;
       access_token := access_token b;
       user_languages := <[user := lang]> (user_languages b) |}.
Proof.
  unfold set_language. run_io.
  destruct (chat_send w room (I18n "messages.language_changed" [] lang));
    reflexivity.
Qed.

(** The bot after a message: the preference of the sender is set when the
    message is a command that the handler does not skip; nothing else
    changes. *)
Lemma handle_message_state (keys : api_keys) (w : world) (b : bot)
    (ev : message_event) :
  state_of (handle_message keys ev w b) =
    if MessageType_eqb (msgtype ev) TEXT
       && negb (String.eqb (sender ev) (client_mxid w))
       && is_language_command (msg_body ev)
    then {| bot_homeserver := bot_homeserver b;
            access_token := access_token b;
            user_languages :=
              <[sender ev := remove_slashes (lower (msg_body ev))]> (user_languages b) |}
    else b.
Proof.
  unfold handle_message, is_language_command.
  destruct (MessageType_eqb (msgtype ev) TEXT); [|reflexivity].
  unfold mbind, prog_bind, get_world. cbn -[String.eqb].
  destruct (String.eqb (sender ev) (client_mxid w)); [reflexivity|].
  cbn -[String.eqb].
  destruct (String.eqb (lower (msg_body ev)) "/ru"
            || String.eqb (lower (msg_body ev)) "/en").
  - pose proof (set_language_state w b (room_id ev) (sender ev)
                  (remove_slashes (lower (msg_body ev)))) as H.
    unfold state_of in *.
    destruct (set_language (room_id ev) (sender ev)
                (remove_slashes (lower (msg_body ev))) w b) as [[t2 b2] r].
    exact H.
  - destruct (detect_crypto_type (msg_body ev)) as [crypto_type|].
    + pose proof (check_address_state keys w b (room_id ev) (msg_body ev)
                    crypto_type (sender ev)) as H.
      unfold state_of in *.
      destruct (check_address keys (room_id ev) (msg_body ev) crypto_type
                  (sender ev) w b) as [[t2 b2] r].
      exact H.
    + unfold get_state, send_text. cbn.
      destruct (chat_send w (room_id ev)
                  (I18n "messages.invalid_address" []
                     (get_user_language b (sender ev)))); reflexivity.
Qed.

Lemma language_command_lang (message : string) :
  is_language_command message = true ->
  remove_slashes (lower message) = "ru" \/ remove_slashes (lower message) = "en".
Proof.
  unfold is_language_command. intros H. apply orb_true_iff in H as [H|H];
    apply String.eqb_eq in H; rewrite H; [left|right]; reflexivity.
Qed.

(** X6. The handler keeps the store within the two languages of the
    commands: if every stored preference is 'ru' or 'en' before a message,
    so it is after it, whatever the message and whatever the outside
    answers. *)
Theorem handle_message_known_languages (keys : api_keys) (w : world) (b : bot)
    (ev : message_event) :
  known_languages b ->
  known_languages (state_of (handle_message keys ev w b)).
Proof.
  intros Hb. rewrite handle_message_state.
  destruct (MessageType_eqb (msgtype ev) TEXT
            && negb (String.eqb (sender ev) (client_mxid w))
            && is_language_command (msg_body ev)) eqn:Hc; [|exact Hb].
  apply andb_true_iff in Hc as [_ Hcmd].
  unfold known_languages in *. cbn.
  apply map_Forall_insert_2; [|exact Hb].
  now apply language_command_lang.
Qed.

Lemma handle_message_known_languages_witness :
  known_languages
    (state_of (handle_message no_keys (mkEvent TEXT "/En" "!room" "@alice:example.org")
                 (stub_world (answer 200 None)) fresh_bot)).
Proof.
  apply (handle_message_known_languages no_keys (stub_world (answer 200 None))
           fresh_bot (mkEvent TEXT "/En" "!room" "@alice:example.org")).
  unfold known_languages, fresh_bot, CryptoCheckerBot_init. cbn.
  apply map_Forall_empty.
Defined.

(** X7. A message changes at most the preference of its sender: the
    language of every other user, the homeserver and the token stay as they
    were, and a message that is not a language command leaves the whole bot
    unchanged. *)
Theorem handle_message_frame (keys : api_keys) (w : world) (b : bot)
    (ev : message_event) :
  let b' := state_of (handle_message keys ev w b) in
  (forall user, user <> sender ev ->
                get_user_language b' user = get_user_language b user)
  /\ bot_homeserver b' = bot_homeserver b
  /\ access_token b' = access_token b
  /\ (is_language_command (msg_body ev) = false -> b' = b).
Proof.
  cbv zeta. rewrite handle_message_state.
  destruct (MessageType_eqb (msgtype ev) TEXT
            && negb (String.eqb (sender ev) (client_mxid w))
            && is_language_command (msg_body ev)) eqn:Hc.
  - apply andb_true_iff in Hc as [_ Hcmd]. repeat split.
    + intros user Hne. unfold get_user_language. cbn.
      rewrite lookup_insert_ne; [reflexivity | congruence].
    + intros Hno. congruence.
  - repeat split; auto.
Qed.

(** X8. The handler skips what is not a text message and what the bot sent
    itself: no reply, no request, no log, no change of the bot. *)
Theorem handle_message_skips (keys : api_keys) (w : world) (b : bot)
    (ev : message_event) :
  MessageType_eqb (msgtype ev) TEXT = false \/ sender ev = client_mxid w ->
  handle_message keys ev w b = ([], b, Ok tt).
Proof.
  intros H. unfold handle_message.
  destruct (MessageType_eqb (msgtype ev) TEXT) eqn:Ht; [|reflexivity].
  destruct H as [H|H]; [discriminate H|].
  unfold mbind, prog_bind, get_world. cbn -[String.eqb].
  rewrite H, String.eqb_refl. reflexivity.
Qed.

Lemma handle_message_skips_witness :
  handle_message some_keys
    (mkEvent TEXT eth_example "!room" "@checker:example.org")
    (stub_world (answer 200 None)) fresh_bot
  = ([], fresh_bot, Ok tt).
Proof.
  apply (handle_message_skips some_keys (stub_world (answer 200 None)) fresh_bot
           (mkEvent TEXT eth_example "!room" "@checker:example.org")).
  right. reflexivity.
Defined.

Lemma handle_message_frame_witness :
  get_user_language
    (state_of (handle_message no_keys (mkEvent TEXT "/en" "!room" "@alice:example.org")
                 (stub_world (answer 200 None)) fresh_bot)) "@bob:example.org"
  = get_user_language fresh_bot "@bob:example.org".
Proof.
  apply (proj1 (handle_message_frame no_keys (stub_world (answer 200 None)) fresh_bot
                  (mkEvent TEXT "/en" "!room" "@alice:example.org"))
           "@bob:example.org").
  discriminate.
Defined.

Lemma length_lower (s : string) : String.length (lower s) = String.length s.
Proof.
  induction s as [|c s IH]; [reflexivity|].
  change (lower (String c s)) with (String (lower_char c) (lower s)).
  cbn [String.length]. now rewrite IH.
Qed.

Lemma length_chomp_le (s : string) : (String.length (chomp s) <= String.length s)%nat.
Proof.
  induction s as [|c s IH]; [cbn; lia|]. rewrite chomp_cons.
  destruct (Ascii.eqb c newline && is_empty s); cbn; lia.
Qed.

Lemma language_command_length (message : string) :
  is_language_command message = true -> String.length message = 3%nat.
Proof.
  unfold is_language_command. intros H. rewrite <- length_lower.
  apply orb_true_iff in H as [H|H]; apply String.eqb_eq in H; now rewrite H.
Qed.

Lemma detect_min_length (s crypto_type : string) :
  detect_crypto_type s = Some crypto_type -> (26 <= String.length s)%nat.
Proof.
  intros H. apply detect_length_bounds in H as (lo & hi & Ht & [Hlo _]).
  pose proof (length_chomp_le s) as Hle.
  unfold address_lengths in Ht.
  repeat match type of Ht with
         | (if ?c then _ else _) = _ => destruct c
         end; inversion Ht; subst; lia.
Qed.

(** X9. A text message of fewer than 26 characters that is not a language
    command is never looked up: the handler issues no request and answers
    with the invalid-address notice in the language of the sender. *)
Theorem handle_message_short_message (keys : api_keys) (w : world) (b : bot)
    (ev : message_event) :
  msgtype ev = TEXT ->
  sender ev <> client_mxid w ->
  is_language_command (msg_body ev) = false ->
  (String.length (msg_body ev) < 26)%nat ->
  let notice := I18n "messages.invalid_address" [] (get_user_language b (sender ev)) in
  handle_message keys ev w b =
    ([SendText (room_id ev) notice], b, chat_send w (room_id ev) notice).
Proof.
  intros Ht Hs Hc Hlen notice. subst notice.
  unfold handle_message. rewrite Ht. cbn [MessageType_eqb negb].
  unfold mbind, prog_bind, get_world. cbn -[String.eqb].
  apply String.eqb_neq in Hs. rewrite Hs.
  unfold is_language_command in Hc. rewrite Hc.
  destruct (detect_crypto_type (msg_body ev)) as [ct|] eqn:Hd.
  - apply detect_min_length in Hd. lia.
  - unfold get_state, send_text. cbn.
    destruct (chat_send w (room_id ev)
                (I18n "messages.invalid_address" []
                   (get_user_language b (sender ev)))); reflexivity.
Qed.

Lemma handle_message_short_message_witness :
  handle_message no_keys (mkEvent TEXT "hello" "!room" "@alice:example.org")
    (stub_world (answer 200 None)) fresh_bot
  = ([SendText "!room" (I18n "messages.invalid_address" [] "ru")], fresh_bot, Ok tt).
Proof.
  apply (handle_message_short_message no_keys (stub_world (answer 200 None)) fresh_bot
           (mkEvent TEXT "hello" "!room" "@alice:example.org")).
  - reflexivity.
  - discriminate.
  - reflexivity.
  - simpl. lia.
Defined.

(** X10. A language command is taken in any letter case: for a text
    message of another user whose lower-case form is "/ru" or "/en", the
    handler stores that language for the sender and sends only the
    confirmation, in the new language; it issues no request. *)
Theorem handle_message_language_command (keys : api_keys) (w : world) (b : bot)
    (ev : message_event) (lang : string) :
  msgtype ev = TEXT ->
  sender ev <> client_mxid w ->
  lang = "ru" \/ lang = "en" ->
  lower (msg_body ev) = "/" +:+ lang ->
  let run := handle_message keys ev w b in
  trace_of run = [SendText (room_id ev) (I18n "messages.language_changed" [] lang)]
  /\ get_user_language (state_of run) (sender ev) = lang.
Proof.
  intros Ht Hs Hlang Hlow run. subst run.
  assert (Hrm : remove_slashes (lower (msg_body ev)) = lang).
  { rewrite Hlow. destruct Hlang as [-> | ->]; reflexivity. }
  assert (Hcmd : String.eqb (lower (msg_body ev)) "/ru"
                 || String.eqb (lower (msg_body ev)) "/en" = true).
  { rewrite Hlow. destruct Hlang as [-> | ->]; reflexivity. }
  unfold handle_message. rewrite Ht. cbn [MessageType_eqb negb].
  unfold mbind, prog_bind, get_world. cbn -[String.eqb].
  apply String.eqb_neq in Hs. rewrite Hs, Hcmd, Hrm.
  unfold set_language. run_io.
  destruct (chat_send w (room_id ev) (I18n "messages.language_changed" [] lang));
    cbn; unfold get_user_language; cbn; rewrite lookup_insert_eq; auto.
Qed.

Lemma handle_message_language_command_witness :
  trace_of (handle_message no_keys (mkEvent TEXT "/RU" "!room" "@alice:example.org")
              (stub_world (answer 200 None)) fresh_bot)
  = [SendText "!room" (I18n "messages.language_changed" [] "ru")]
  /\ get_user_language
       (state_of (handle_message no_keys
                    (mkEvent TEXT "/RU" "!room" "@alice:example.org")
                    (stub_world (answer 200 None)) fresh_bot))
       "@alice:example.org" = "ru".
Proof.
  apply (handle_message_language_command no_keys (stub_world (answer 200 None))
           fresh_bot (mkEvent TEXT "/RU" "!room" "@alice:example.org") "ru").
  - reflexivity.
  - discriminate.
  - left. reflexivity.
  - reflexivity.
Defined.

(** X11. The language a user has chosen is the language of the answers to
    that user's addresses: after a command for [lang], a message of the same
    sender that is classified starts with the checking notice in [lang],
    with the name of the coin looked up in [lang] too. *)
Theorem language_command_then_address (keys : api_keys) (w : world) (b : bot)
    (room user command address crypto_type lang : string) :
  user <> client_mxid w ->
  lang = "ru" \/ lang = "en" ->
  lower command = "/" +:+ lang ->
  detect_crypto_type address = Some crypto_type ->
  let b1 := state_of (handle_message keys (mkEvent TEXT command room user) w b) in
  exists rest,
    trace_of (handle_message keys (mkEvent TEXT address room user) w b1)
    = SendText room
        (I18n "messages.checking"
           [("address", FStr [Lit address]);
            ("crypto", I18n ("crypto." +:+ crypto_type) [] lang)] lang)
      :: rest.
Proof.
  intros Hs Hlang Hlow Hd b1.
  assert (Hb1 : get_user_language b1 user = lang).
  { assert (Hcmd : is_language_command command = true).
    { unfold is_language_command. rewrite Hlow.
      destruct Hlang as [-> | ->]; reflexivity. }
    assert (Hrm : remove_slashes (lower command) = lang).
    { rewrite Hlow. destruct Hlang as [-> | ->]; reflexivity. }
    subst b1. rewrite handle_message_state. cbn [msgtype sender msg_body].
    apply String.eqb_neq in Hs. rewrite Hs, Hcmd, Hrm. cbn [MessageType_eqb andb negb].
    unfold get_user_language. cbn. now rewrite lookup_insert_eq. }
  assert (Hnc : String.eqb (lower address) "/ru" || String.eqb (lower address) "/en"
                = false).
  { destruct (String.eqb (lower address) "/ru" || String.eqb (lower address) "/en")
      eqn:E; [|reflexivity].
    apply language_command_length in E. apply detect_min_length in Hd. lia. }
  unfold handle_message. cbn [msgtype sender msg_body room_id MessageType_eqb negb].
  unfold mbind, prog_bind, get_world. cbn -[String.eqb].
  apply String.eqb_neq in Hs. rewrite Hs, Hnc, Hd.
  unfold check_address, mbind, prog_bind, get_state, send_text. cbn -[String.eqb].
  rewrite Hb1. unfold checking_notice.
  destruct (chat_send w room _) as [[]|e]; cbn.
  - match goal with
    | |- context [try_except ?m ?h w b1] =>
        destruct (try_except m h w b1) as [[t2 b2] r]
    end.
    cbn. eauto.
  - eauto.
Qed.

Lemma language_command_then_address_witness :
  exists rest,
    trace_of (handle_message no_keys (mkEvent TEXT btc_example "!room" "@alice:example.org")
                (stub_world (answer 404 None))
                (state_of (handle_message no_keys
                             (mkEvent TEXT "/EN" "!room" "@alice:example.org")
                             (stub_world (answer 404 None)) fresh_bot)))
    = SendText "!room"
        (I18n "messages.checking"
           [("address", FStr [Lit btc_example]);
            ("crypto", I18n ("crypto." +:+ "bitcoin") [] "en")] "en")
      :: rest.
Proof.
  apply (language_command_then_address no_keys (stub_world (answer 404 None)) fresh_bot
           "!room" "@alice:example.org" "/EN" btc_example "bitcoin" "en").
  - discriminate.
  - right. reflexivity.
  - reflexivity.
  - reflexivity.
Defined.

(** ** Start-up *)

(** X12. [start] logs in first: when [whoami] raises, the exception is
    written to the log and raised again, and the handler is not registered
    nor [sync_forever] called; when it answers, the user id is logged, the
    handler registered and [sync_forever] called, in this order, and
    [start] ends as that call ends (with AttributeError when the client has
    no such method). *)
Theorem start_login_first (w : world) (b : bot) :
  (forall e,
      chat_whoami w = Raise e ->
      start w b = ([WhoAmI; LogError (FStr [Lit "Failed to log in: "; FmtExn e])],
                   b, Raise e))
  /\ (forall user_id,
        chat_whoami w = Ok user_id ->
        start w b = ([WhoAmI; LogInfo (FStr [Lit "Logged in as "; Fmt (VStr user_id)]);
                      AddEventHandler; SyncForever], b, chat_sync w)).
Proof.
  split; intros x Hw; unfold start, login, whoami, add_event_handler, sync_forever;
    run_io; rewrite Hw; cbn; [reflexivity|].
  destruct (chat_sync w); reflexivity.
Qed.

Lemma start_login_first_witness :
  start {| http := answer 200 None;
           client_new := fun _ => Ok tt;
           chat_send := fun _ _ => Ok tt;
           chat_whoami := Raise TransportError;
           chat_sync := Raise AttributeError;
           client_mxid := "" |} fresh_bot
  = ([WhoAmI; LogError (FStr [Lit "Failed to log in: "; FmtExn TransportError])],
     fresh_bot, Raise TransportError).
Proof.
  apply (proj1 (start_login_first
                  {| http := answer 200 None;
                     client_new := fun _ => Ok tt;
                     chat_send := fun _ _ => Ok tt;
                     chat_whoami := Raise TransportError;
                     chat_sync := Raise AttributeError;
                     client_mxid := "" |} fresh_bot)).
  reflexivity.
Defined.

(** The three INFO lines [main] writes first. *)
Lemma main_split (env : environ) (w : world) :
  exists rest r,
    main env w tt =
      ([LogInfo (FStr [Lit "Homeserver: "; fmt_opt (getenv env "MATRIX_HOMESERVER")]);
        LogInfo (FStr [Lit "User ID: "; fmt_opt (getenv env "MATRIX_USER_ID")]);
        LogInfo (FStr [Lit "Access Token: ";
                       Fmt (VStr (if not_set (getenv env "MATRIX_ACCESS_TOKEN")
                                  then "Not set" else "**********"))])]
       ++ rest, tt, r)%list
    /\ ((not_set (getenv env "MATRIX_HOMESERVER")
         || not_set (getenv env "MATRIX_USER_ID")
         || not_set (getenv env "MATRIX_ACCESS_TOKEN") = true ->
         rest = [LogError (FStr [Lit "Matrix homeserver, user_id or access_token not set"])]
         /\ r = Ok tt)
        /\ (forall user_id,
              not_set (getenv env "MATRIX_HOMESERVER") = false ->
              not_set (getenv env "MATRIX_ACCESS_TOKEN") = false ->
              getenv env "MATRIX_USER_ID" = Some user_id ->
              user_id <> "" ->
              (startswith_at user_id = false ->
               rest = [LogError (FStr [Lit "User ID must start with @, got: ";
                                       Fmt (VStr user_id)])]
               /\ r = Ok tt)
              /\ (startswith_at user_id = true -> rest = [] /\ r = Raise TypeError))).
Proof.
  unfold main.
  destruct (getenv env "MATRIX_HOMESERVER") as [h|];
    destruct (getenv env "MATRIX_USER_ID") as [u|];
    destruct (getenv env "MATRIX_ACCESS_TOKEN") as [a|];
    unfold mbind, prog_bind, logger_info, logger_error, lift, not_set;
    cbn -[String.eqb];
    try (eexists _, _; split; [reflexivity|]; split;
         [ intros _; split; reflexivity
         | intros user_id H1 H2 H3 H4; try discriminate H1; try discriminate H2;
           discriminate H3 ]).
  destruct (String.eqb u "") eqn:Eu; cbn -[String.eqb].
  { eexists _, _; split; [reflexivity|]; split.
    - intros _; split; reflexivity.
    - intros user_id H1 H2 H3 H4. inversion H3; subst user_id.
      apply String.eqb_eq in Eu. contradiction. }
  destruct (String.eqb a "") eqn:Ea; cbn -[String.eqb].
  { eexists _, _; split; [reflexivity|]; split.
    - intros _; split; reflexivity.
    - intros user_id H1 H2 H3 H4. discriminate H2. }
  destruct (String.eqb h "") eqn:Eh; cbn -[String.eqb].
  { eexists _, _; split; [reflexivity|]; split.
    - intros _; split; reflexivity.
    - intros user_id H1 H2 H3 H4. discriminate H1. }
  destruct (startswith_at u) eqn:Es; cbn -[String.eqb].
  - eexists _, _; split; [reflexivity|]; split.
    + intros H. discriminate H.
    + intros user_id H1 H2 H3 H4. inversion H3; subst user_id.
      split; intros H; [congruence | split; reflexivity].
  - eexists _, _; split; [reflexivity|]; split.
    + intros H. discriminate H.
    + intros user_id H1 H2 H3 H4. inversion H3; subst user_id.
      split; intros H; [split; reflexivity | congruence].
Qed.

(** X13. With a variable missing or empty among MATRIX_HOMESERVER,
    MATRIX_USER_ID and MATRIX_ACCESS_TOKEN, and likewise with a user id that
    does not start with '@', [main] writes one ERROR line after its three
    INFO lines and returns normally: it does not raise and builds no bot. *)
Theorem main_rejects_configuration (env : environ) (w : world) :
  let infos :=
    [LogInfo (FStr [Lit "Homeserver: "; fmt_opt (getenv env "MATRIX_HOMESERVER")]);
     LogInfo (FStr [Lit "User ID: "; fmt_opt (getenv env "MATRIX_USER_ID")]);
     LogInfo (FStr [Lit "Access Token: ";
                    Fmt (VStr (if not_set (getenv env "MATRIX_ACCESS_TOKEN")
                               then "Not set" else "**********"))])] in
  (not_set (getenv env "MATRIX_HOMESERVER")
   || not_set (getenv env "MATRIX_USER_ID")
   || not_set (getenv env "MATRIX_ACCESS_TOKEN") = true ->
   main env w tt =
     (infos ++ [LogError (FStr [Lit "Matrix homeserver, user_id or access_token not set"])],
      tt, Ok tt)%list)
  /\ (forall user_id,
        not_set (getenv env "MATRIX_HOMESERVER") = false ->
        not_set (getenv env "MATRIX_ACCESS_TOKEN") = false ->
        getenv env "MATRIX_USER_ID" = Some user_id ->
        user_id <> "" ->
        startswith_at user_id = false ->
        main env w tt =
          (infos ++ [LogError (FStr [Lit "User ID must start with @, got: ";
                                     Fmt (VStr user_id)])],
           tt, Ok tt)%list).
Proof.
  cbv zeta. destruct (main_split env w) as (rest & r & Hmain & Hmissing & Huser).
  split.
  - intros H. destruct (Hmissing H) as [-> ->]. exact Hmain.
  - intros user_id H1 H2 H3 H4 H5.
    destruct (proj1 (Huser user_id H1 H2 H3 H4) H5) as [-> ->]. exact Hmain.
Qed.

Lemma main_rejects_configuration_witness :
  main (<["MATRIX_HOMESERVER" := "https://example.org"]> ∅)
    (stub_world (answer 200 None)) tt
  = ([LogInfo (FStr [Lit "Homeserver: "; Fmt (VStr "https://example.org")]);
      LogInfo (FStr [Lit "User ID: "; Fmt VNone]);
      LogInfo (FStr [Lit "Access Token: "; Fmt (VStr "Not set")]);
      LogError (FStr [Lit "Matrix homeserver, user_id or access_token not set"])],
     tt, Ok tt).
Proof.
  exact (proj1 (main_rejects_configuration
                  (<["MATRIX_HOMESERVER" := "https://example.org"]> ∅)
                  (stub_world (answer 200 None))) eq_refl).
Defined.

(** X14. In no environment does [main] get as far as the login: every
    event it causes is a line of the log, and it either returns normally or
    raises TypeError. *)
Theorem main_never_logs_in (env : environ) (w : world) :
  forallb is_log (trace_of (main env w tt)) = true
  /\ (result_of (main env w tt) = Ok tt \/ result_of (main env w tt) = Raise TypeError).
Proof.
  unfold main.
  destruct (getenv env "MATRIX_HOMESERVER") as [h|];
    destruct (getenv env "MATRIX_USER_ID") as [u|];
    destruct (getenv env "MATRIX_ACCESS_TOKEN") as [a|];
    unfold mbind, prog_bind, logger_info, logger_error, lift;
    cbn -[String.eqb]; auto.
  destruct (String.eqb u "" || String.eqb a "" || String.eqb h "");
    cbn -[String.eqb]; auto.
  destruct (startswith_at u); cbn; auto.
Qed.

(** X15. The value of the access token does not reach the log or the
    outcome of [main]: two environments that differ only in a token that is
    not empty give the same events and the same result. *)
Theorem main_hides_token (env : gmap string string) (w : world)
    (token1 token2 : string) :
  token1 <> "" -> token2 <> "" ->
  main (<["MATRIX_ACCESS_TOKEN" := token1]> env) w tt
  = main (<["MATRIX_ACCESS_TOKEN" := token2]> env) w tt.
Proof.
  intros H1 H2. apply String.eqb_neq in H1, H2.
  unfold main, getenv, environ.
  rewrite !lookup_insert_eq.
  rewrite !(lookup_insert_ne _ "MATRIX_ACCESS_TOKEN" "MATRIX_HOMESERVER") by discriminate.
  rewrite !(lookup_insert_ne _ "MATRIX_ACCESS_TOKEN" "MATRIX_USER_ID") by discriminate.
  destruct (env !! "MATRIX_HOMESERVER") as [h|];
    destruct (env !! "MATRIX_USER_ID") as [u|];
    unfold mbind, prog_bind, logger_info, logger_error, lift, not_set;
    cbn -[String.eqb]; rewrite ?H1, ?H2; reflexivity.
Qed.

Lemma main_hides_token_witness :
  main (<["MATRIX_ACCESS_TOKEN" := "token"]> start_env) (stub_world (answer 200 None)) tt
  = main (<["MATRIX_ACCESS_TOKEN" := "another"]> start_env)
      (stub_world (answer 200 None)) tt.
Proof.
  apply (main_hides_token start_env (stub_world (answer 200 None)) "token" "another");
    discriminate.
Defined.

(** ** More on the adapters *)

Lemma utxo_adapters_full_inv (segment coin ticker : string) (api : string -> io text) :
  In (segment, coin, ticker, api) utxo_adapters_full ->
  api = check_utxo segment coin ticker.
Proof.
  intros Hin. simpl in Hin.
  destruct Hin as [H | [H | [H | []]]]; inversion H; reflexivity.
Qed.

(** X16. When the provider answers a UTXO adapter HTTP 200, a body that is
    not JSON makes the adapter raise JSONDecodeError, and a JSON body that
    is not an object makes it raise AttributeError; in both cases after the
    one request. *)
Theorem utxo_adapter_bad_body (segment coin ticker : string)
    (api : string -> io text) (w : world) (b : bot) (address : string)
    (r : response) :
  In (segment, coin, ticker, api) utxo_adapters_full ->
  http w (utxo_url segment address) [] = Ok r ->
  status_code r = 200 ->
  (body r = None ->
   api address w b = ([HttpGet (utxo_url segment address) []], b, Raise JSONDecodeError))
  /\ (forall v,
        body r = Some v -> is_dict v = false ->
        api address w b
        = ([HttpGet (utxo_url segment address) []], b, Raise AttributeError)).
Proof.
  intros Hin Hget Hst. rewrite (utxo_adapters_full_inv _ _ _ _ Hin).
  unfold check_utxo. run_io. rewrite Hget, Hst. cbn. split.
  - intros ->. reflexivity.
  - intros v -> Hv. destruct v; try discriminate Hv; reflexivity.
Qed.

Lemma utxo_adapter_bad_body_witness :
  check_litecoin btc_example (stub_world (answer 200 (Some (VList [])))) fresh_bot
  = ([HttpGet (utxo_url "ltc" btc_example) []], fresh_bot, Raise AttributeError).
Proof.
  apply (proj2 (utxo_adapter_bad_body "ltc" "Litecoin" "LTC" check_litecoin
                  (stub_world (answer 200 (Some (VList [])))) fresh_bot btc_example
                  (mkResponse 200 (Some (VList [])))
                  ltac:(simpl; tauto) eq_refl eq_refl)
           (VList [])); reflexivity.
Defined.

(** X17. The fields a UTXO adapter does not find in the object default to
    zero: with none of balance, total_received, total_sent and n_tx in the
    body, the report shows the float 0.0 for the three amounts and the int
    0 for the transactions. *)
Theorem utxo_adapter_missing_fields (segment coin ticker : string)
    (api : string -> io text) (w : world) (b : bot) (address : string)
    (kv : list (string * value)) :
  In (segment, coin, ticker, api) utxo_adapters_full ->
  http w (utxo_url segment address) [] = Ok (mkResponse 200 (Some (VDict kv))) ->
  Py.assoc kv "balance" = None ->
  Py.assoc kv "total_received" = None ->
  Py.assoc kv "total_sent" = None ->
  Py.assoc kv "n_tx" = None ->
  api address w b =
    ([HttpGet (utxo_url segment address) []], b,
     Ok (utxo_report coin ticker address
           (VFloat (S754_zero false)) (VFloat (S754_zero false))
           (VFloat (S754_zero false)) (VInt 0))).
Proof.
  intros Hin Hget Hb Hr Hs Hn. rewrite (utxo_adapters_full_inv _ _ _ _ Hin).
  unfold check_utxo. run_io. rewrite Hget. cbn. rewrite Hb, Hr, Hs, Hn.
  reflexivity.
Qed.

Lemma utxo_adapter_missing_fields_witness :
  check_dogecoin btc_example (stub_world (answer 200 (Some (VDict [])))) fresh_bot
  = ([HttpGet (utxo_url "doge" btc_example) []], fresh_bot,
     Ok (utxo_report "Dogecoin" "DOGE" btc_example
           (VFloat (S754_zero false)) (VFloat (S754_zero false))
           (VFloat (S754_zero false)) (VInt 0))).
Proof.
  apply (utxo_adapter_missing_fields "doge" "Dogecoin" "DOGE" check_dogecoin
           (stub_world (answer 200 (Some (VDict [])))) fresh_bot btc_example []);
    try reflexivity.
  simpl. tauto.
Defined.

(** X18. The TRON adapter sends the key of trongrid as the header
    TRON-PRO-API-KEY when there is one and no header otherwise. On HTTP 200
    with an object it reads the first entry of [data] only: the report
    carries that entry's balance divided by 10^6 (0 when the entry has no
    balance); without a true [success], or with an empty [data], it answers
    with the no-data message. *)
Theorem check_tron_outcomes (keys : api_keys) (w : world) (b : bot)
    (address : string) (kv : list (string * value)) :
  let headers := if String.eqb (trongrid keys) "" then []
                 else [("TRON-PRO-API-KEY", trongrid keys)] in
  http w (tron_url address) headers = Ok (mkResponse 200 (Some (VDict kv))) ->
  let run := check_tron keys address w b in
  let events := [HttpGet (tron_url address) headers] in
  let no_data := FStr [Lit "No data found for TRON address: "; Fmt (VStr address)] in
  (forall success account rest q,
      Py.assoc kv "success" = Some success -> Py.truthy success = true ->
      Py.assoc kv "data" = Some (VList (VDict account :: rest)) ->
      Py.truediv (match Py.assoc account "balance" with
                  | Some v => v | None => VInt 0 end) float_1e6 = Ok q ->
      run = (events, b,
             Ok (FStr [Lit "TRON Address: "; Fmt (VStr address);
                       Lit (NL +:+ "Balance: "); Fmt q; Lit " TRX"])))
  /\ (Py.assoc kv "success" = None -> run = (events, b, Ok no_data))
  /\ (forall success,
        Py.assoc kv "success" = Some success -> Py.truthy success = false ->
        run = (events, b, Ok no_data))
  /\ (forall success,
        Py.assoc kv "success" = Some success ->
        Py.assoc kv "data" = None \/ Py.assoc kv "data" = Some (VList []) ->
        run = (events, b, Ok no_data)).
Proof.
  intros headers Hget run events no_data. subst run events no_data.
  unfold check_tron, success_with_data. fold headers in Hget.
  change (tron_headers keys) with headers.
  run_io. rewrite Hget. cbn.
  split; [|split; [|split]].
  - intros success account rest q Hs Ht Hd Hq.
    rewrite Hs, Ht, Hd. cbn. rewrite Hq. reflexivity.
  - intros Hs. rewrite Hs. reflexivity.
  - intros success Hs Ht. rewrite Hs, Ht. reflexivity.
  - intros success Hs Hd. rewrite Hs.
    destruct (Py.truthy success); [|reflexivity].
    destruct Hd as [Hd|Hd]; rewrite Hd; reflexivity.
Qed.

Lemma check_tron_outcomes_witness :
  check_tron some_keys tron_example
    (stub_world (answer 200 (Some (VDict
       [("success", VBool true);
        ("data", VList [VDict [("balance", VInt 1500000)]])]))))
    fresh_bot
  = ([HttpGet (tron_url tron_example) []], fresh_bot,
     Ok (FStr [Lit "TRON Address: "; Fmt (VStr tron_example);
               Lit (NL +:+ "Balance: "); Fmt (VFloat one_and_a_half); Lit " TRX"])).
Proof.
  apply (proj1 (check_tron_outcomes some_keys
                  (stub_world (answer 200 (Some (VDict
                     [("success", VBool true);
                      ("data", VList [VDict [("balance", VInt 1500000)]])]))))
                  fresh_bot tron_example
                  [("success", VBool true);
                   ("data", VList [VDict [("balance", VInt 1500000)]])]
                  eq_refl)
           (VBool true) [("balance", VInt 1500000)] [] (VFloat one_and_a_half));
    reflexivity.
Defined.

(** X19. When both requests of the Ethereum adapter succeed with provider
    status '1', the transaction count of the report is the number of
    entries of the [result] list of the second answer, and 0 when that
    answer has no [result]. *)
Theorem check_ethereum_transaction_count (keys : api_keys) (w : world) (b : bot)
    (address : string) (data result : value) (n : Z) (balance : value)
    (tx_response : response) (tx_kv : list (string * value)) :
  etherscan keys <> "" ->
  http w (eth_balance_url keys address) [] = Ok (mkResponse 200 (Some data)) ->
  Py.getitem data "status" = Ok (VStr "1") ->
  Py.getitem data "result" = Ok result ->
  Py.int result = Ok n ->
  Py.truediv (VInt n) float_1e18 = Ok balance ->
  http w (eth_txlist_url keys address) [] = Ok tx_response ->
  body tx_response = Some (VDict tx_kv) ->
  Py.assoc tx_kv "status" = Some (VStr "1") ->
  let run := check_ethereum keys address w b in
  let events := [HttpGet (eth_balance_url keys address) [];
                 HttpGet (eth_txlist_url keys address) []] in
  (forall txs,
      Py.assoc tx_kv "result" = Some (VList txs) ->
      run = (events, b,
             Ok (ethereum_report address balance (Z.of_nat (List.length txs)))))
  /\ (Py.assoc tx_kv "result" = None ->
      run = (events, b, Ok (ethereum_report address balance 0))).
Proof.
  intros Hk Hget Hst Hres Hint Hdiv Htx Hbody Htxst run events. subst run events.
  unfold check_ethereum. apply String.eqb_neq in Hk. rewrite Hk.
  run_io. rewrite Hget. cbn. rewrite Hst. cbn. rewrite Hres. cbn.
  rewrite Hint. cbn. rewrite Hdiv, Htx, Hbody. cbn. rewrite Htxst. cbn.
  split.
  - intros txs Hr. rewrite Hr. reflexivity.
  - intros Hr. rewrite Hr. reflexivity.
Qed.

Lemma check_ethereum_transaction_count_witness :
  check_ethereum some_keys eth_example
    (eth_world (Ok (mkResponse 200 (Some (VDict
       [("status", VStr "1"); ("result", VList [VDict []; VDict []; VDict []])])))))
    fresh_bot
  = ([HttpGet (eth_balance_url some_keys eth_example) [];
      HttpGet (eth_txlist_url some_keys eth_example) []], fresh_bot,
     Ok (ethereum_report eth_example (VFloat one_and_a_half) 3)).
Proof.
  apply (proj1 (check_ethereum_transaction_count some_keys
                  (eth_world (Ok (mkResponse 200 (Some (VDict
                     [("status", VStr "1");
                      ("result", VList [VDict []; VDict []; VDict []])])))))
                  fresh_bot eth_example eth_balance_body
                  (VStr "1500000000000000000") 1500000000000000000
                  (VFloat one_and_a_half)
                  (mkResponse 200 (Some (VDict
                     [("status", VStr "1");
                      ("result", VList [VDict []; VDict []; VDict []])])))
                  [("status", VStr "1");
                   ("result", VList [VDict []; VDict []; VDict []])]
                  ltac:(discriminate) eq_refl eq_refl eq_refl eq_refl eq_refl
                  eq_refl eq_refl eq_refl)
           [VDict []; VDict []; VDict []]);
    reflexivity.
Defined.

(** X20. The USDT-ERC20 adapter, with a key and an HTTP 200 answer that is
    an object: provider status '1' gives the report with [result] read as an
    int and divided by 10^6; any other status gives the error message with
    the provider's [message], and raises KeyError when there is none. *)
Theorem check_ethereum_usdt_outcomes (keys : api_keys) (w : world) (b : bot)
    (address : string) (kv : list (string * value)) (status : value) :
  etherscan keys <> "" ->
  http w (eth_usdt_url keys address) [] = Ok (mkResponse 200 (Some (VDict kv))) ->
  Py.assoc kv "status" = Some status ->
  let run := check_ethereum_usdt keys address w b in
  let events := [HttpGet (eth_usdt_url keys address) []] in
  (forall result n q,
      status = VStr "1" ->
      Py.assoc kv "result" = Some result ->
      Py.int result = Ok n ->
      Py.truediv (VInt n) float_1e6 = Ok q ->
      run = (events, b,
             Ok (FStr [Lit "USDT (ERC20) Address: "; Fmt (VStr address);
                       Lit (NL +:+ "Balance: "); Fmt q; Lit " USDT"])))
  /\ (forall message,
        Py.eq_str status "1" = false ->
        Py.assoc kv "message" = Some message ->
        run = (events, b,
               Ok (FStr [Lit "Error checking USDT (ERC20) address: "; Fmt message])))
  /\ (Py.eq_str status "1" = false ->
      Py.assoc kv "message" = None ->
      run = (events, b, Raise KeyError)).
Proof.
  intros Hk Hget Hst run events. subst run events.
  unfold check_ethereum_usdt. apply String.eqb_neq in Hk. rewrite Hk.
  run_io. rewrite Hget. cbn. rewrite Hst. cbn.
  split; [|split].
  - intros result n q -> Hr Hint Hdiv. cbn. rewrite Hr. cbn.
    rewrite Hint. cbn. rewrite Hdiv. reflexivity.
  - intros message Hne Hm. rewrite Hne, Hm. reflexivity.
  - intros Hne Hm. rewrite Hne, Hm. reflexivity.
Qed.

Lemma check_ethereum_usdt_outcomes_witness :
  check_ethereum_usdt some_keys eth_example
    (stub_world (answer 200 (Some (VDict
       [("status", VStr "1"); ("message", VStr "OK"); ("result", VStr "1500000")]))))
    fresh_bot
  = ([HttpGet (eth_usdt_url some_keys eth_example) []], fresh_bot,
     Ok (FStr [Lit "USDT (ERC20) Address: "; Fmt (VStr eth_example);
               Lit (NL +:+ "Balance: "); Fmt (VFloat one_and_a_half); Lit " USDT"])).
Proof.
  apply (proj1 (check_ethereum_usdt_outcomes some_keys
                  (stub_world (answer 200 (Some (VDict
                     [("status", VStr "1"); ("message", VStr "OK");
                      ("result", VStr "1500000")]))))
                  fresh_bot eth_example
                  [("status", VStr "1"); ("message", VStr "OK");
                   ("result", VStr "1500000")]
                  (VStr "1") ltac:(discriminate) eq_refl eq_refl)
           (VStr "1500000") 1500000 (VFloat one_and_a_half));
    reflexivity.
Defined.

(** ** From the classifier to the adapters *)

(** X21. Every type the classifier returns has an adapter, and it is one of
    the five adapters of the base chains: a message is never answered with
    the unsupported-type notice, and the two USDT adapters are never called
    for a message. *)
Theorem detect_crypto_type_dispatch (keys : api_keys) (s crypto_type : string) :
  detect_crypto_type s = Some crypto_type ->
  exists api,
    crypto_apis keys crypto_type = Some api
    /\ In api [check_bitcoin; check_ethereum keys; check_litecoin;
               check_tron keys; check_dogecoin].
Proof.
  rewrite detect_crypto_type_chomp, classify_spec_by_shape.
  unfold classify_by_shape.
  destruct (bitcoin_shape (chomp s)).
  { intros H; inversion H. exists check_bitcoin. split; [reflexivity|].
    simpl. tauto. }
  destruct (ethereum_shape (chomp s)).
  { intros H; inversion H. exists (check_ethereum keys). split; [reflexivity|].
    simpl. tauto. }
  destruct (litecoin_shape (chomp s)).
  { intros H; inversion H. exists check_litecoin. split; [reflexivity|].
    simpl. tauto. }
  destruct (tron_shape (chomp s)).
  { intros H; inversion H. exists (check_tron keys). split; [reflexivity|].
    simpl. tauto. }
  destruct (dogecoin_shape (chomp s)); [|discriminate].
  intros H; inversion H. exists check_dogecoin. split; [reflexivity|].
  simpl. tauto.
Qed.

Lemma detect_crypto_type_dispatch_witness :
  exists api,
    crypto_apis some_keys "tron" = Some api
    /\ In api [check_bitcoin; check_ethereum some_keys; check_litecoin;
               check_tron some_keys; check_dogecoin].
Proof.
  apply (detect_crypto_type_dispatch some_keys tron_example "tron"). reflexivity.
Defined.
